(** * gorm-cache: a read-path cache plugin for gorm

    Shallow embedding of [cacher.go] (the revision with the pluggable
    [Codec] and the validating [Initialize]) and the properties of its
    interception layer.

    The plugin lives between three external collaborators, none of which is
    part of the repository: Go's [reflect] and [encoding/json] packages and
    the gorm ORM.  Each gets a small model of its own below, kept apart from
    the plugin's code:
    - [reflect]: types with a kind, a package path, a name and an element
      type; values of those types;
    - gorm: the [DB] and [Statement] records the callbacks receive, the
      schema's [Field]s, [AddError], and an environment [Env] for what gorm
      and the drivers do behind the plugin's back;
    - [encoding/json]: a [Codec] that environments carry; the general
      theorems take it as a parameter, and [stdjson] is a reference model
      of the library used to run the code on concrete inputs.

    Conventions: a Go [*T] receiver that is mutated in place becomes a value
    that is passed in and returned; [[]byte] and [string] are both
    [string]; a nilable [error] is [option error]. *)

From Stdlib Require Import ZArith Ascii String.
From stdpp Require Import base option strings gmap list sorting pretty.

Set Warnings "-register-all".

Local Open Scope Z_scope.
Local Open Scope string_scope.

(** ** Package reflect *)

Module reflect.

Inductive Kind :=
| Invalid | Bool | Int | Float64 | String | Struct | Slice | Array | Ptr
| Map | Interface.

Global Instance Kind_eq_dec : EqDecision Kind.
Proof. solve_decision. Defined.

(** One field of a struct type.  [Tag] is the name given by a
    [json:"..."] struct tag, when the field has one. *)
Record StructField (T : Type) := mkStructField {
  FieldName : string;
  Tag : option string;
  FieldType : T;
}.
Global Arguments mkStructField {T} _ _ _.
Global Arguments FieldName {T} _.
Global Arguments Tag {T} _.
Global Arguments FieldType {T} _.

(** [reflect.Type].  Every type may be a defined (named) type; a type
    literal such as [[]User] or [*User] has the empty name. *)
Inductive rtype :=
| Basic (k : Kind) (pkgPath name : string)
| StructOf (pkgPath name : string) (fields : list (StructField rtype))
| PtrTo (pkgPath name : string) (elem : rtype)
| SliceOf (pkgPath name : string) (elem : rtype)
| ArrayOf (pkgPath name : string) (len : nat) (elem : rtype).

Definition kind (t : rtype) : Kind :=
  match t with
  | Basic k _ _ => k
  | StructOf _ _ _ => Struct
  | PtrTo _ _ _ => Ptr
  | SliceOf _ _ _ => Slice
  | ArrayOf _ _ _ _ => Array
  end.

(** [Type.Name]: the type's name within its package, empty for a type
    literal. *)
Definition Name (t : rtype) : string :=
  match t with
  | Basic _ _ n | StructOf _ n _ | PtrTo _ n _ | SliceOf _ n _
  | ArrayOf _ n _ _ => n
  end.

Definition PkgPath (t : rtype) : string :=
  match t with
  | Basic _ p _ | StructOf p _ _ | PtrTo p _ _ | SliceOf p _ _
  | ArrayOf p _ _ _ => p
  end.

(** [Type.Elem]; Go panics on a type without an element type. *)
Definition Elem (t : rtype) : option rtype :=
  match t with
  | PtrTo _ _ e | SliceOf _ _ e | ArrayOf _ _ _ e => Some e
  | _ => None
  end.

(** A float64 as far as the plugin and the codec tell floats apart:
    not-a-number, the infinities, and the decimal [mant * 10^exp]. *)
Inductive float64 :=
| NaN
| Inf (negative : bool)
| Dec (mant exp : Z).

Global Instance float64_eq_dec : EqDecision float64.
Proof. solve_decision. Defined.

(** A Go value, as a non-nil [interface{}] or a [reflect.Value] holds it.
    Structs keep their fields in declaration order; a pointer is nil or
    holds its pointee. *)
Inductive value :=
| VBool (b : bool)
| VInt (n : Z)
| VFloat (f : float64)
| VString (s : string)
| VStruct (t : rtype) (fields : list (string * value))
| VSlice (t : rtype) (elems : list value)
| VArray (t : rtype) (elems : list value)
| VPtr (t : rtype) (pointee : option value).

Definition TypeOf (v : value) : rtype :=
  match v with
  | VBool _ => Basic Bool "" "bool"
  | VInt _ => Basic Int "" "int64"
  | VFloat _ => Basic Float64 "" "float64"
  | VString _ => Basic String "" "string"
  | VStruct t _ | VSlice t _ | VArray t _ | VPtr t _ => t
  end.

(** [Value.Kind] *)
Definition KindOf (v : value) : Kind := kind (TypeOf v).

(** [Value.Len]; Go panics unless the value is a slice or an array (a
    string, map or chan is not among the values here). *)
Definition Len (v : value) : nat :=
  match v with
  | VSlice _ xs | VArray _ xs => length xs
  | _ => 0%nat
  end.

(** [Value.Index]; Go panics out of range. *)
Definition Index (v : value) (i : nat) : option value :=
  match v with
  | VSlice _ xs | VArray _ xs => xs !! i
  | _ => None
  end.

(** [reflect.Indirect] *)
Definition Indirect (v : value) : option value :=
  match v with
  | VPtr _ p => p
  | _ => Some v
  end.

(** The zero value of a type. *)
Fixpoint Zero (t : rtype) : value :=
  match t with
  | Basic Bool _ _ => VBool false
  | Basic Float64 _ _ => VFloat (Dec 0 0)
  | Basic String _ _ => VString ""
  | Basic _ _ _ => VInt 0
  | StructOf _ _ fs =>
      VStruct t (map (fun f => (FieldName f, Zero (FieldType f))) fs)
  | PtrTo _ _ _ => VPtr t None
  | SliceOf _ _ _ => VSlice t []
  | ArrayOf _ _ n e => VArray t (replicate n (Zero e))
  end.

(** [Value.IsZero].  For a float only the bit pattern of +0.0 is zero. *)
Fixpoint IsZero (v : value) : bool :=
  match v with
  | VBool b => negb b
  | VInt n => (n =? 0)%Z
  | VFloat f => bool_decide (f = Dec 0 0)
  | VString s => bool_decide (s = "")
  | VStruct _ fs => forallb (fun f => IsZero f.2) fs
  | VSlice _ xs => match xs with [] => true | _ => false end
  | VArray _ xs => forallb IsZero xs
  | VPtr _ p => match p with None => true | Some _ => false end
  end.

(** [Value.FieldByName] on a struct. *)
Fixpoint lookupField (fs : list (string * value)) (name : string)
  : option value :=
  match fs with
  | [] => None
  | (n, v) :: fs' => if decide (n = name) then Some v else lookupField fs' name
  end.

Definition FieldByName (v : value) (name : string) : option value :=
  match v with
  | VStruct _ fs => lookupField fs name
  | _ => None
  end.

End reflect.

(** ** Errors *)

(** Go's [error] values that occur here: [errors.New], the plugin's own
    [*ErrGormCache], and what gorm's [AddError] builds when [db.Error] is
    already set, [fmt.Errorf("%v; %w", db.Error, err)]. *)
Inductive error :=
| errorString (s : string)
| ErrGormCache (err : error)
| wrapError (prev err : error).

Module errors.
Definition New (text : string) : error := errorString text.
End errors.

(** ** Package context *)

Module context.

(** Keys are compared by type and value; [nocachectx] is the plugin's
    unexported key type, [userKey] stands for anybody else's. *)
Inductive key :=
| nocachectx
| userKey (name : string).

Global Instance key_eq_dec : EqDecision key.
Proof. solve_decision. Defined.

Definition Context := list (key * Z).

Definition Background : Context := [].

Definition WithValue (parent : Context) (k : key) (val : Z) : Context :=
  (k, val) :: parent.

(** [ctx.Value(k)]: the innermost binding of [k], nil when there is none. *)
Fixpoint Value (ctx : Context) (k : key) : option Z :=
  match ctx with
  | [] => None
  | (k', v) :: parent => if decide (k' = k) then Some v else Value parent k
  end.

End context.

(** ** gorm *)

Module schema.

(** [schema.Field], as far as the plugin uses it: the Go field name and the
    accessor [ValueOf], which returns the field's value in a record and
    whether that value is the zero value. *)
Record Field := mkField {
  Name : string;
  ValueOf : context.Context -> reflect.value -> reflect.value * bool;
}.

Record Schema := mkSchema {
  Fields : list Field;
}.

End schema.

Module gorm.

(** [gorm.Statement].  [ReflectValue] is the destination of the query:
    gorm derives it from [Dest] by following the pointer, so [Dest] is a
    pointer to this very cell and has no field of its own here. *)
Record statement := mkStatement {
  ReflectValue : reflect.value;
  Schema : option schema.Schema;
  Context : context.Context;
  SQL : string;
  Vars : list reflect.value;
}.

Record DB := mkDB {
  Statement : statement;
  Error : option error;
  RowsAffected : Z;
  DryRun : bool;
}.

Definition withReflectValue (db : DB) (v : reflect.value) : DB :=
  let st := Statement db in
  mkDB (mkStatement v (Schema st) (Context st) (SQL st) (Vars st))
       (Error db) (RowsAffected db) (DryRun db).

Definition withContext (db : DB) (ctx : context.Context) : DB :=
  let st := Statement db in
  mkDB (mkStatement (ReflectValue st) (Schema st) ctx (SQL st) (Vars st))
       (Error db) (RowsAffected db) (DryRun db).

Definition withError (db : DB) (e : option error) : DB :=
  mkDB (Statement db) e (RowsAffected db) (DryRun db).

Definition withRowsAffected (db : DB) (n : Z) : DB :=
  mkDB (Statement db) (Error db) n (DryRun db).

(** [db.AddError(err)]: nothing for a nil error; the first error is kept
    as it is, a later one is chained behind it. *)
Definition AddError (db : DB) (err : option error) : DB :=
  match err with
  | None => db
  | Some e =>
      match Error db with
      | None => withError db (Some e)
      | Some prev => withError db (Some (wrapError prev e))
      end
  end.

End gorm.

(** ** The plugin's interfaces *)

Abbreviation fieldMap := (gmap string reflect.value).

(** What the plugin hands to [Marshal] as an [interface{}]: a
    [map[string]interface{}] (never nil there), or a
    [[]map[string]interface{}] whose entries may be nil maps ([None]). *)
Inductive any :=
| MapOf (m : fieldMap)
| SliceOfMaps (ms : list (option fieldMap)).

(** [Codec].  [Unmarshal] writes through its destination pointer: it takes
    the pointee and returns what the pointee has become, also when it
    fails. *)
Record Codec := mkCodec {
  Marshal : any -> string * option error;
  Unmarshal : string -> reflect.value -> reflect.value * option error;
}.

(** What happens outside the plugin: the states of the key-value store and
    of the database connection, the rows of a result set, gorm's SQL
    builder, scanner and dialect, and package [encoding/json]. *)
Record Env := mkEnv {
  KVState : Type;
  ConnState : Type;
  Rows : Type;
  BuildQuerySQL : gorm.DB -> gorm.DB;
  QueryContext :
    context.Context -> string -> list reflect.value -> ConnState ->
    (Rows * option error) * ConnState;
  Scan : Rows -> gorm.DB -> gorm.DB;
  Explain : string -> list reflect.value -> string;
  json : Codec;
}.

(** [CacheKV], over the store's state. *)
Record CacheKV (E : Env) := mkCacheKV {
  Get : context.Context -> string -> KVState E ->
        (bool * string * option error) * KVState E;
  Set_ : context.Context -> string -> string -> Z -> KVState E ->
         option error * KVState E;
}.
Arguments Get {E} _ _ _ _.
Arguments Set_ {E} _ _ _ _ _ _.

(** The calls that leave the plugin, in the order they are made. *)
Inductive event :=
| KvGet (key : string)
| KvSet (key value : string) (exp : Z)
| ConnQuery (sql : string) (vars : list reflect.value)
| LoggerInfo (kind : reflect.Kind).

Record World (E : Env) := mkWorld {
  kvs : KVState E;
  conn : ConnState E;
  trace : list event;
}.
Arguments mkWorld {E} _ _ _.
Arguments kvs {E} _.
Arguments conn {E} _.
Arguments trace {E} _.

Definition emit {E} (w : World E) (ev : event) : World E :=
  mkWorld (kvs w) (conn w) (trace w ++ [ev]).

(** ** Package singleflight *)

Module singleflight.

(** [Group.Do(key, fn)] as a single caller sees it: with no other call in
    flight for [key], [fn] runs and its results are returned.  (The group's
    only state is the set of calls in flight, which is empty between the
    calls of a sequential run.) *)
Definition Do {A : Type} (key : string) (fn : unit -> A) : A := fn tt.

End singleflight.

(** ** cacher.go *)

Definition Name : string := "gorm-cache".

(** [ErrGormCache.Error], and the [Error] methods of the other errors. *)
Fixpoint Error_ (e : error) : string :=
  match e with
  | errorString s => s
  | ErrGormCache err => Name ++ ":" ++ Error_ err
  | wrapError prev err => Error_ prev ++ "; " ++ Error_ err
  end.

Definition NewErrGormCache (err : option error) : option error :=
  match err with
  | Some e => Some (ErrGormCache e)
  | None => None
  end.

(** [GormCacher].  [modelNames] is only measured and looked up, for which
    a nil map and an empty one are alike: both are the empty map here.
    [requestGroup] has no field: see [singleflight.Do]. *)
Record GormCacher (E : Env) := mkGormCacher {
  kv : CacheKV E;
  queryAfterRegisterName : string;
  modelNames : gmap string bool;
  exp : Z;
  cacheKeyFunc : gorm.DB -> string;
  codec : Codec;
}.
Arguments mkGormCacher {E} _ _ _ _ _ _.
Arguments kv {E} _.
Arguments queryAfterRegisterName {E} _.
Arguments modelNames {E} _.
Arguments exp {E} _.
Arguments cacheKeyFunc {E} _.
Arguments codec {E} _.

Definition Option (E : Env) := GormCacher E -> GormCacher E.

(** [stdJsonCodec]: [json.Marshal] and [json.Unmarshal]. *)
Definition stdJsonCodec (E : Env) : Codec :=
  mkCodec (fun v => Marshal (json E) v)
          (fun data v => Unmarshal (json E) data v).

Definition GormCache {E : Env} (kv : CacheKV E) (exp : Z)
    (options : list (Option E)) : GormCacher E :=
  let cacher :=
    mkGormCacher kv (Name ++ ":after_query") ∅ exp
      (fun db => Explain E (gorm.SQL (gorm.Statement db))
                           (gorm.Vars (gorm.Statement db)))
      (stdJsonCodec E) in
  fold_left (fun c o => o c) options cacher.

(** Strips the pointers in front of a type:
    [for typ.Kind() == reflect.Ptr { typ = typ.Elem() }]. *)
Fixpoint stripPtr (typ : reflect.rtype) : reflect.rtype :=
  match typ with
  | reflect.PtrTo _ _ e => stripPtr e
  | _ => typ
  end.

(** The inner loop of [structType], started on a slice or array type:
    [for typ.Elem().Kind() == reflect.Ptr { typ = typ.Elem() }], then
    [typ.Elem()].  [e] is [typ.Elem()]. *)
Fixpoint elemPastPtr (e : reflect.rtype) : reflect.rtype :=
  match e with
  | reflect.PtrTo _ _ e' => elemPastPtr e'
  | _ => e
  end.

Definition structType (val : reflect.value) : reflect.rtype :=
  let typ := stripPtr (reflect.TypeOf val) in
  match typ with
  | reflect.ArrayOf _ _ _ e | reflect.SliceOf _ _ e => elemPastPtr e
  | _ => typ
  end.

Definition CacheKeyFunc {E : Env} (f : gorm.DB -> string) : Option E :=
  fun gc =>
    mkGormCacher (kv gc) (queryAfterRegisterName gc) (modelNames gc) (exp gc)
                 f (codec gc).

Definition Models {E : Env} (models : list reflect.value) : Option E :=
  fun gc =>
    let modelNames :=
      fold_left (fun m item => <[reflect.Name (structType item) := true]> m)
                models (∅ : gmap string bool) in
    mkGormCacher (kv gc) (queryAfterRegisterName gc) modelNames (exp gc)
                 (cacheKeyFunc gc) (codec gc).

Definition WithCodec {E : Env} (c : Codec) : Option E :=
  fun gc =>
    mkGormCacher (kv gc) (queryAfterRegisterName gc) (modelNames gc) (exp gc)
                 (cacheKeyFunc gc) c.

Section cacher.

Context {E : Env}.

Definition canCache (g : GormCacher E) (db : gorm.DB) : bool :=
  let tname :=
    reflect.Name (structType (gorm.ReflectValue (gorm.Statement db))) in
  match modelNames g !! tname with
  | Some _ => true
  | None => false
  end.

(** The body of the loop of the [reflect.Struct] case of [queryResult]. *)
Definition structValueStep (ctx : context.Context)
    (reflectValue : reflect.value) (valueData : fieldMap)
    (field : schema.Field) : fieldMap :=
  let '(fieldValue, isZero) := schema.ValueOf field ctx reflectValue in
  if isZero then valueData
  else <[schema.Name field := fieldValue]> valueData.

(** The loop itself, over [valueData := make(map[string]interface{})]. *)
Definition structValueData (ctx : context.Context)
    (fields : list schema.Field) (reflectValue : reflect.value) : fieldMap :=
  fold_left (structValueStep ctx reflectValue) fields ∅.

(** The body of the inner loop of the slice case, at index [i] (always
    below [lens], so [Index] and the two accesses to [valueArrData[i]] are
    in range). *)
Definition sliceValueStep (ctx : context.Context) (field : schema.Field)
    (reflectValue : reflect.value) (valueArrData : list (option fieldMap))
    (i : nat) : list (option fieldMap) :=
  match reflect.Index reflectValue i with
  | None => valueArrData
  | Some elem =>
      let '(fieldValue, isZero) := schema.ValueOf field ctx elem in
      if isZero then valueArrData
      else
        let valueArrData :=
          match valueArrData !! i with
          | Some None => <[i := Some ∅]> valueArrData
          | _ => valueArrData
          end in
        match valueArrData !! i with
        | Some (Some m) =>
            <[i := Some (<[schema.Name field := fieldValue]> m)]> valueArrData
        | _ => valueArrData
        end
  end.

(** The two loops of the [reflect.Slice, reflect.Array] case. *)
Definition sliceValueData (ctx : context.Context)
    (fields : list schema.Field) (reflectValue : reflect.value)
    : list (option fieldMap) :=
  let lens := reflect.Len reflectValue in
  fold_left
    (fun valueArrData field =>
       fold_left (sliceValueStep ctx field reflectValue) (seq 0 lens)
                 valueArrData)
    fields (replicate lens None).

(** [queryResult]; [None] is the nil dereference of
    [db.Statement.Schema.Fields] when the statement has no schema. *)
Definition queryResult (g : GormCacher E) (db : gorm.DB) (w : World E)
    : option ((bool * string * option error) * World E) :=
  match gorm.Schema (gorm.Statement db) with
  | None => None
  | Some sch =>
      let fields := schema.Fields sch in
      let reflectValue := gorm.ReflectValue (gorm.Statement db) in
      let ctx := gorm.Context (gorm.Statement db) in
      match reflect.KindOf reflectValue with
      | reflect.Struct =>
          let valueData := structValueData ctx fields reflectValue in
          let '(val, err) := Marshal (json E) (MapOf valueData) in
          Some ((true, val, err), w)
      | reflect.Slice | reflect.Array =>
          let valueArrData := sliceValueData ctx fields reflectValue in
          let '(val, err) := Marshal (json E) (SliceOfMaps valueArrData) in
          Some ((true, val, err), w)
      | k => Some ((false, "", None), emit w (LoggerInfo k))
      end
  end.

(** [unmarshalToDB].  [db.Statement.Dest] points to the cell of
    [ReflectValue], so decoding into it gives that cell its new content;
    [elem] is that content ([reflect.ValueOf] of the pointer cannot be set,
    so its [Elem] is taken), and [reflectValue.Set(elem)] stores it.  What
    a failed decoding has written before it failed stays written. *)
Definition unmarshalToDB (g : GormCacher E) (cacheValue : string)
    (db : gorm.DB) (w : World E) : gorm.DB * World E :=
  let reflectValue := gorm.ReflectValue (gorm.Statement db) in
  let '(dest, err) := Unmarshal (json E) cacheValue reflectValue in
  let db := gorm.withReflectValue db dest in
  match err with
  | Some e => (gorm.AddError db (Some e), w)
  | None =>
      let elem := dest in
      let '(db, w) :=
        match reflect.KindOf reflectValue with
        | reflect.Struct => (gorm.withRowsAffected db 1, w)
        | reflect.Slice | reflect.Array =>
            (gorm.withRowsAffected db (Z.of_nat (reflect.Len elem)), w)
        | k => (db, emit w (LoggerInfo k))
        end in
      (gorm.withReflectValue db elem, w)
  end.

(** [db.Statement.ConnPool.QueryContext(ctx, sql, vars...)] *)
Definition connQuery (db : gorm.DB) (w : World E)
    : (Rows E * option error) * World E :=
  let st := gorm.Statement db in
  let '(res, c) :=
    QueryContext E (gorm.Context st) (gorm.SQL st) (gorm.Vars st) (conn w) in
  (res, mkWorld (kvs w) c
          (trace w ++ [ConnQuery (gorm.SQL st) (gorm.Vars st)])).

Definition queryFromDB (g : GormCacher E) (db : gorm.DB) (cachekey : string)
    (w : World E) : gorm.DB * World E :=
  let '(db, (rows, err), w) :=
    if decide (cachekey = "") then
      let '(res, w) := connQuery db w in (db, res, w)
    else
      singleflight.Do cachekey (fun _ =>
        let db :=
          gorm.withContext db
            (context.WithValue (gorm.Context (gorm.Statement db))
                               context.nocachectx 1) in
        let '(res, w) := connQuery db w in (db, res, w)) in
  match err with
  | Some e => (gorm.AddError db (Some e), w)
  | None => (Scan E rows db, w)
  end.

Definition kvGet (g : GormCacher E) (ctx : context.Context) (key : string)
    (w : World E) : (bool * string * option error) * World E :=
  let '(res, s) := Get (kv g) ctx key (kvs w) in
  (res, mkWorld s (conn w) (trace w ++ [KvGet key])).

Definition kvSet (g : GormCacher E) (ctx : context.Context)
    (key value : string) (w : World E) : option error * World E :=
  let '(err, s) := Set_ (kv g) ctx key value (exp g) (kvs w) in
  (err, mkWorld s (conn w) (trace w ++ [KvSet key value (exp g)])).

(** [query] replaces gorm:query. *)
Definition query (g : GormCacher E) (db : gorm.DB) (w : World E)
    : gorm.DB * World E :=
  if gorm.DryRun db || bool_decide (is_Some (gorm.Error db)) then (db, w)
  else
    let db := BuildQuerySQL E db in
    if canCache g db then
      let cachekey := cacheKeyFunc g db in
      let '((ok, value, err), w) :=
        kvGet g (gorm.Context (gorm.Statement db)) cachekey w in
      match err with
      | Some e => (gorm.AddError db (NewErrGormCache (Some e)), w)
      | None =>
          if ok then unmarshalToDB g value db w
          else queryFromDB g db cachekey w
      end
    else queryFromDB g db "" w.

(** [queryAfter] sets the cache after the query. *)
Definition queryAfter (g : GormCacher E) (db : gorm.DB) (w : World E)
    : gorm.DB * World E :=
  match context.Value (gorm.Context (gorm.Statement db)) context.nocachectx with
  | None => (db, w)
  | Some _ =>
      if bool_decide (is_Some (gorm.Error db))
         || bool_decide (gorm.Schema (gorm.Statement db) = None)
         || negb (canCache g db)
      then (db, w)
      else
        match queryResult g db w with
        | None => (db, w)
        | Some ((ok, value, err), w) =>
            if negb ok then (db, w)
            else
              let key := cacheKeyFunc g db in
              match err with
              | Some e => (gorm.AddError db (NewErrGormCache (Some e)), w)
              | None =>
                  let '(err, w) :=
                    kvSet g (gorm.Context (gorm.Statement db)) key value w in
                  (gorm.AddError db (NewErrGormCache err), w)
              end
        end
  end.

End cacher.

Section Initialize.

Context {E : Env}.

(** gorm's callback processor for queries, [db.Callback().Query()]: its
    state and the two registrations [Initialize] makes. *)
Variable Processor : Type.

Definition handler : Type := gorm.DB -> World E -> gorm.DB * World E.

Variable Replace : string -> handler -> Processor -> option error * Processor.

Variable AfterRegister :
  string -> string -> handler -> Processor -> option error * Processor.

Definition Initialize (g : GormCacher E) (p : Processor)
    : option error * Processor :=
  if bool_decide (size (modelNames g) = 0%nat) then
    (NewErrGormCache
       (Some (errors.New "call `Models` to add model that needs to be cached")),
     p)
  else
    let '(err, p) := Replace "gorm:query" (query g) p in
    match err with
    | Some e => (NewErrGormCache (Some e), p)
    | None =>
        let '(err, p) :=
          AfterRegister "gorm:query" (queryAfterRegisterName g)
                        (queryAfter g) p in
        match err with
        | Some e => (NewErrGormCache (Some e), p)
        | None => (None, p)
        end
    end.

End Initialize.

(** ** Package encoding/json: a reference model

    The library is outside the repository; the general theorems below take
    its two functions as they come with the environment.  This model is
    what the concrete runs use.  It covers the documented behaviour on the
    values of [reflect.value]: objects with sorted keys for maps, [null]
    for a nil map or pointer, struct fields under their tag name (a field
    tagged ["-"] is skipped), an error for NaN and the infinities; decoding
    by destination type, keys matched exactly or else case-insensitively,
    unknown keys ignored, [null] a no-op except on pointers and slices.
    Output is compact; strings escape the quote and the backslash only. *)

Module stdjson.

Inductive doc :=
| JNull
| JBool (b : bool)
| JNum (mant exp : Z)
| JStr (s : string)
| JArr (elems : list doc)
| JObj (members : list (string * doc)).

Definition dq : ascii := "034"%char.
Definition bs : ascii := "092"%char.

(** *** Printing *)

Fixpoint escape (s : string) : string :=
  match s with
  | EmptyString => EmptyString
  | String c s' =>
      if decide (c = dq) then String bs (String dq (escape s'))
      else if decide (c = bs) then String bs (String bs (escape s'))
      else String c (escape s')
  end.

Definition quote (s : string) : string :=
  String dq (escape s) ++ String dq EmptyString.

Definition commaSep (parts : list string) : string :=
  match parts with
  | [] => ""
  | p :: ps => fold_left (fun acc q => acc ++ "," ++ q) ps p
  end.

Fixpoint render (j : doc) : string :=
  match j with
  | JNull => "null"
  | JBool true => "true"
  | JBool false => "false"
  | JNum m 0 => pretty m
  | JNum m e => pretty m ++ "e" ++ pretty e
  | JStr s => quote s
  | JArr js => "[" ++ commaSep (map render js) ++ "]"
  | JObj ms =>
      "{" ++ commaSep (map (fun kv => quote kv.1 ++ ":" ++ render kv.2) ms)
          ++ "}"
  end.

(** *** Encoding Go values *)

Definition unsupported (what : string) : error :=
  errors.New ("json: unsupported value: " ++ what).

(** The name a struct field is encoded and decoded under, [None] for a
    field the library skips. *)
Definition jsonName (f : reflect.StructField reflect.rtype) : option string :=
  match reflect.Tag f with
  | Some tag => if decide (tag = "-") then None else Some tag
  | None => Some (reflect.FieldName f)
  end.

Definition structFields (t : reflect.rtype)
    : list (reflect.StructField reflect.rtype) :=
  match t with
  | reflect.StructOf _ _ fs => fs
  | _ => []
  end.

Definition fieldNamed (t : reflect.rtype) (name : string)
    : option (reflect.StructField reflect.rtype) :=
  snd <$> list_find (fun f => reflect.FieldName f = name) (structFields t).

(** Collects the results of encoding a list, the first error winning. *)
Fixpoint sequence {A} (rs : list (A + error)) : list A + error :=
  match rs with
  | [] => inl []
  | inr e :: _ => inr e
  | inl a :: rs' =>
      match sequence rs' with
      | inl l => inl (a :: l)
      | inr e => inr e
      end
  end.

Fixpoint encode (v : reflect.value) : doc + error :=
  match v with
  | reflect.VBool b => inl (JBool b)
  | reflect.VInt n => inl (JNum n 0)
  | reflect.VFloat reflect.NaN => inr (unsupported "NaN")
  | reflect.VFloat (reflect.Inf false) => inr (unsupported "+Inf")
  | reflect.VFloat (reflect.Inf true) => inr (unsupported "-Inf")
  | reflect.VFloat (reflect.Dec m e) => inl (JNum m e)
  | reflect.VString s => inl (JStr s)
  | reflect.VStruct t fs =>
      match
        sequence
          (map (fun nv =>
                  match fieldNamed t nv.1 ≫= jsonName with
                  | None => inl None
                  | Some key =>
                      match encode nv.2 with
                      | inl j => inl (Some (key, j))
                      | inr e => inr e
                      end
                  end) fs)
      with
      | inl ms => inl (JObj (omap id ms))
      | inr e => inr e
      end
  | reflect.VSlice _ xs | reflect.VArray _ xs =>
      match sequence (map encode xs) with
      | inl js => inl (JArr js)
      | inr e => inr e
      end
  | reflect.VPtr _ None => inl JNull
  | reflect.VPtr _ (Some x) => encode x
  end.

(** A map is written with its keys in increasing order. *)
Definition keyLe (a b : string * reflect.value) : Prop :=
  String.leb a.1 b.1 = true.

Global Instance keyLe_dec : RelDecision keyLe.
Proof. intros a b. unfold keyLe. apply _. Defined.

Definition sortedEntries (m : fieldMap) : list (string * reflect.value) :=
  merge_sort keyLe (map_to_list m).

Definition encodeMap (m : option fieldMap) : doc + error :=
  match m with
  | None => inl JNull
  | Some m =>
      match
        sequence
          (map (fun kv =>
                  match encode kv.2 with
                  | inl j => inl (kv.1, j)
                  | inr e => inr e
                  end) (sortedEntries m))
      with
      | inl ms => inl (JObj ms)
      | inr e => inr e
      end
  end.

Definition encodeAny (a : any) : doc + error :=
  match a with
  | MapOf m => encodeMap (Some m)
  | SliceOfMaps ms =>
      match sequence (map encodeMap ms) with
      | inl js => inl (JArr js)
      | inr e => inr e
      end
  end.

(** [json.Marshal]: [(nil, err)] on failure. *)
Definition Marshal (a : any) : string * option error :=
  match encodeAny a with
  | inl j => (render j, None)
  | inr e => ("", Some e)
  end.

(** *** Parsing *)

Definition digitOf (c : ascii) : option Z :=
  let n := nat_of_ascii c in
  if (48 <=? n)%nat && (n <=? 57)%nat then Some (Z.of_nat (n - 48)) else None.

Fixpoint parseDigits (acc : Z) (s : string) : Z * string :=
  match s with
  | String c s' =>
      match digitOf c with
      | Some d => parseDigits (acc * 10 + d) s'
      | None => (acc, s)
      end
  | EmptyString => (acc, s)
  end.

Definition parseNat (s : string) : option (Z * string) :=
  match s with
  | String c _ =>
      match digitOf c with
      | Some _ => Some (parseDigits 0 s)
      | None => None
      end
  | EmptyString => None
  end.

Definition parseInt (s : string) : option (Z * string) :=
  match s with
  | String "-" s' => prod_map Z.opp id <$> parseNat s'
  | _ => parseNat s
  end.

Definition parseNumber (s : string) : option (doc * string) :=
  match parseInt s with
  | Some (m, String "e" s') =>
      match parseInt s' with
      | Some (e, s'') => Some (JNum m e, s'')
      | None => None
      end
  | Some (m, s') => Some (JNum m 0, s')
  | None => None
  end.

(** The rest of a string literal, after its opening quote. *)
Fixpoint parseStringBody (s : string) : option (string * string) :=
  match s with
  | EmptyString => None
  | String c s' =>
      if decide (c = dq) then Some (EmptyString, s')
      else if decide (c = bs) then
        match s' with
        | String c' s'' =>
            if decide (c' = dq ∨ c' = bs) then
              prod_map (String c') id <$> parseStringBody s''
            else None
        | EmptyString => None
        end
      else prod_map (String c) id <$> parseStringBody s'
  end.

Definition expect (word : string) (j : doc) (s : string)
    : option (doc * string) :=
  if String.prefix word s
  then Some (j, String.substring (String.length word)
                                 (String.length s - String.length word) s)
  else None.

Fixpoint parseValue (fuel : nat) (s : string) : option (doc * string) :=
  match fuel with
  | O => None
  | S fuel =>
      match s with
      | EmptyString => None
      | String c s' =>
          if decide (c = "n"%char) then expect "null" JNull s
          else if decide (c = "t"%char) then expect "true" (JBool true) s
          else if decide (c = "f"%char) then expect "false" (JBool false) s
          else if decide (c = dq) then
            prod_map JStr id <$> parseStringBody s'
          else if decide (c = "["%char) then
            match s' with
            | String "]" s'' => Some (JArr [], s'')
            | _ => prod_map JArr id <$> parseElems fuel s'
            end
          else if decide (c = "{"%char) then
            match s' with
            | String "}" s'' => Some (JObj [], s'')
            | _ => prod_map JObj id <$> parseMembers fuel s'
            end
          else parseNumber s
      end
  end
with parseElems (fuel : nat) (s : string) : option (list doc * string) :=
  match fuel with
  | O => None
  | S fuel =>
      match parseValue fuel s with
      | Some (j, String "," s') =>
          prod_map (cons j) id <$> parseElems fuel s'
      | Some (j, String "]" s') => Some ([j], s')
      | _ => None
      end
  end
with parseMembers (fuel : nat) (s : string)
    : option (list (string * doc) * string) :=
  match fuel with
  | O => None
  | S fuel =>
      match s with
      | String c s' =>
          if decide (c = dq) then
            match parseStringBody s' with
            | Some (k, String ":" s'') =>
                match parseValue fuel s'' with
                | Some (j, String "," s3) =>
                    prod_map (cons (k, j)) id <$> parseMembers fuel s3
                | Some (j, String "}" s3) => Some ([(k, j)], s3)
                | _ => None
                end
            | _ => None
            end
          else None
      | EmptyString => None
      end
  end.

Definition parse (data : string) : option doc :=
  match parseValue (S (String.length data)) data with
  | Some (j, EmptyString) => Some j
  | _ => None
  end.

(** *** Decoding into Go values *)

Definition lower (c : ascii) : ascii :=
  let n := nat_of_ascii c in
  if (65 <=? n)%nat && (n <=? 90)%nat then ascii_of_nat (n + 32) else c.

Fixpoint foldCase (s : string) : string :=
  match s with
  | EmptyString => EmptyString
  | String c s' => String (lower c) (foldCase s')
  end.

(** The Go name of the struct field a key of an object goes to. *)
Definition findField (t : reflect.rtype) (key : string) : option string :=
  let fs := structFields t in
  match list_find (fun f => jsonName f = Some key) fs with
  | Some (_, f) => Some (reflect.FieldName f)
  | None =>
      match
        list_find (fun f => foldCase <$> jsonName f = Some (foldCase key)) fs
      with
      | Some (_, f) => Some (reflect.FieldName f)
      | None => None
      end
  end.

Fixpoint setField (fs : list (string * reflect.value)) (name : string)
    (v : reflect.value) : list (string * reflect.value) :=
  match fs with
  | [] => []
  | (n, x) :: fs' =>
      if decide (n = name) then (n, v) :: fs' else (n, x) :: setField fs' name v
  end.

Definition elemType (t : reflect.rtype) : reflect.rtype :=
  default t (reflect.Elem t).

Definition isNull (j : doc) : bool :=
  match j with JNull => true | _ => false end.

Definition typeError (j : doc) (dest : reflect.value) : error :=
  errors.New ("json: cannot unmarshal " ++ render j
              ++ " into Go value of type "
              ++ reflect.Name (reflect.TypeOf dest)).

Definition firstError (e1 e2 : option error) : option error :=
  match e1 with Some _ => e1 | None => e2 end.

(** One level of pointer in front of a destination: [null] makes the
    pointer nil, anything else is decoded into the pointee, allocated when
    the pointer is nil. *)
Definition throughPtr (null : bool)
    (dec : reflect.value -> reflect.value * option error)
    (dest : reflect.value) : reflect.value * option error :=
  match dest with
  | reflect.VPtr t p =>
      if null then (reflect.VPtr t None, None)
      else
        let '(v, e) := dec (default (reflect.Zero (elemType t)) p) in
        (reflect.VPtr t (Some v), e)
  | _ => dec dest
  end.

(** Decoding into a destination that is not a pointer.  (A pointer to a
    pointer is outside this model.) *)
Fixpoint decodeInto (j : doc) (dest : reflect.value) {struct j}
    : reflect.value * option error :=
  match j, dest with
  | JNull, reflect.VSlice t _ => (reflect.VSlice t [], None)
  | JNull, _ => (dest, None)
  | JBool b, reflect.VBool _ => (reflect.VBool b, None)
  | JNum m 0, reflect.VInt _ => (reflect.VInt m, None)
  | JNum m e, reflect.VFloat _ => (reflect.VFloat (reflect.Dec m e), None)
  | JStr s, reflect.VString _ => (reflect.VString s, None)
  | JObj ms, reflect.VStruct t fs =>
      let '(fs', e) :=
        (fix members (ms : list (string * doc))
             (fs : list (string * reflect.value)) (err : option error) :=
           match ms with
           | [] => (fs, err)
           | (k, jv) :: ms' =>
               match findField t k ≫= (fun n => pair n <$> reflect.lookupField fs n) with
               | Some (n, cur) =>
                   let '(v, e) := throughPtr (isNull jv) (decodeInto jv) cur in
                   members ms' (setField fs n v) (firstError err e)
               | None => members ms' fs err
               end
           end) ms fs None in
      (reflect.VStruct t fs', e)
  | JArr js, reflect.VSlice t xs =>
      let zero := reflect.Zero (elemType t) in
      let '(vs, e) :=
        (fix elems (js : list doc) (i : nat) :=
           match js with
           | [] => ([], None)
           | j' :: js' =>
               let '(v, e) :=
                 throughPtr (isNull j') (decodeInto j')
                            (default zero (xs !! i)) in
               let '(vs, e') := elems js' (S i) in
               (v :: vs, firstError e e')
           end) js 0%nat in
      (reflect.VSlice t vs, e)
  | JArr js, reflect.VArray t xs =>
      let zero := reflect.Zero (elemType t) in
      let '(vs, e) :=
        (fix elems (js : list doc) (xs : list reflect.value) :=
           match xs with
           | [] => ([], None)
           | x :: xs' =>
               match js with
               | [] => (zero :: replicate (length xs') zero, None)
               | j' :: js' =>
                   let '(v, e) :=
                     throughPtr (isNull j') (decodeInto j') x in
                   let '(vs, e') := elems js' xs' in
                   (v :: vs, firstError e e')
               end
           end) js xs in
      (reflect.VArray t vs, e)
  | _, _ => (dest, Some (typeError j dest))
  end.

(** [json.Unmarshal]: the text is checked first, so a syntax error leaves
    the destination as it was. *)
Definition Unmarshal (data : string) (dest : reflect.value)
    : reflect.value * option error :=
  match parse data with
  | None => (dest, Some (errors.New "json: invalid character"))
  | Some j => throughPtr (isNull j) (decodeInto j) dest
  end.

Definition codec : Codec := mkCodec Marshal Unmarshal.

End stdjson.

(** ** Reading the trace *)

Definition isKvCall (ev : event) : bool :=
  match ev with
  | KvGet _ | KvSet _ _ _ => true
  | _ => false
  end.

Definition isConnQuery (ev : event) : bool :=
  match ev with
  | ConnQuery _ _ => true
  | _ => false
  end.

(** The calls to the store, and the queries sent to the database, among
    the events of a trace. *)
Definition kvCalls (tr : list event) : list event := List.filter isKvCall tr.

Definition connQueries (tr : list event) : list event :=
  List.filter isConnQuery tr.

(** ** gorm's schema of a plain struct type

    Modelled from gorm: [schema.Parse] gives one [Field] per struct field,
    named after the Go field (whatever its json tag); its [ValueOf] follows a
    pointer to the record, reads the field and reports [IsZero] of it. *)

Definition plainField (name : string) : schema.Field :=
  schema.mkField name
    (fun _ v =>
       match reflect.Indirect v ≫= (fun s => reflect.FieldByName s name) with
       | Some fv => (fv, reflect.IsZero fv)
       | None => (reflect.VBool false, true)
       end).

Definition parseSchema (t : reflect.rtype) : schema.Schema :=
  schema.mkSchema
    (map (fun f => plainField (reflect.FieldName f)) (stdjson.structFields t)).

(** ** A codec's contract per field map

    Decoding writes the fields of the payload by name into the destination
    and leaves the others as they are. *)

Definition writeFields (m : fieldMap) (dest : reflect.value) : reflect.value :=
  match dest with
  | reflect.VStruct t fs =>
      reflect.VStruct t (map (fun nv => (nv.1, default nv.2 (m !! nv.1))) fs)
  | _ => dest
  end.

(** [c] round-trips the field map [m] into [dest]: whatever payload it
    encodes [m] as, it decodes into [dest] as [m]'s fields by name. *)
Definition roundTrips (c : Codec) (m : fieldMap) (dest : reflect.value) : Prop :=
  forall payload,
    Marshal c (MapOf m) = (payload, None) ->
    Unmarshal c payload dest = (writeFields m dest, None).

(** ** A small environment to run the code in

    The store is a map without expiry, the database holds the one result
    every query yields, scanning copies it to the destination, the SQL
    builder does nothing and the dialect explains a statement as its text. *)

Definition rowCount (rows : reflect.value) : Z :=
  match rows with
  | reflect.VSlice _ xs | reflect.VArray _ xs => Z.of_nat (length xs)
  | _ => 1
  end.

Definition memEnv : Env :=
  mkEnv (gmap string string) reflect.value reflect.value
    (fun db => db)
    (fun _ _ _ table => ((table, None), table))
    (fun rows db =>
       gorm.withRowsAffected (gorm.withReflectValue db rows) (rowCount rows))
    (fun sql _ => sql)
    stdjson.codec.

Definition memKV : CacheKV memEnv :=
  mkCacheKV memEnv
    (fun _ key (s : gmap string string) =>
       match s !! key with
       | Some v => ((true, v, None), s)
       | None => ((false, "", None), s)
       end)
    (fun _ key value _ (s : gmap string string) => (None, <[key := value]> s)).

(** A store that cannot be reached. *)
Definition downKV : CacheKV memEnv :=
  mkCacheKV memEnv
    (fun _ _ s => ((false, "", Some (errors.New "dial tcp: connection refused")), s))
    (fun _ _ _ _ s => (Some (errors.New "dial tcp: connection refused"), s)).

Module sample.

Import reflect.

Definition int64 : rtype := Basic Int "" "int64".
Definition string_ : rtype := Basic String "" "string".
Definition float64_ : rtype := Basic Float64 "" "float64".

(** [type User struct { ID int64; Name string; Score float64 }] of
    package main. *)
Definition userFields : list (StructField rtype) :=
  [mkStructField "ID" None int64; mkStructField "Name" None string_;
   mkStructField "Score" None float64_].

Definition User : rtype := StructOf "main" "User" userFields.

(** A type of the same name in another package. *)
Definition adminUser : rtype :=
  StructOf "example.com/admin" "User" [mkStructField "Login" None string_].

(** [type Order struct { ID int64 }], never registered. *)
Definition Order : rtype := StructOf "main" "Order" [mkStructField "ID" None int64].

(** [type Account struct { ID int64; Email string `json:"email_address"` }] *)
Definition Account : rtype :=
  StructOf "main" "Account"
    [mkStructField "ID" None int64;
     mkStructField "Email" (Some "email_address") string_].

Definition user (id : Z) (name : string) (score : float64) : value :=
  VStruct User [("ID", VInt id); ("Name", VString name); ("Score", VFloat score)].

Definition mike : value := user 7 "Mike" (Dec 15 (-1)).

Definition account (id : Z) (email : string) : value :=
  VStruct Account [("ID", VInt id); ("Email", VString email)].

Definition stmt (dest : value) (t : rtype) (sql : string) : gorm.statement :=
  gorm.mkStatement dest (Some (parseSchema t)) context.Background sql [].

Definition db (dest : value) (t : rtype) (sql : string) : gorm.DB :=
  gorm.mkDB (stmt dest t sql) None 0 false.

Definition world (store : gmap string string) (table : value) : World memEnv :=
  mkWorld (E := memEnv) store table [].

(** [GormCache(kv, 5s, Models(new(User)))] *)
Definition cacher (kv : CacheKV memEnv) : GormCacher memEnv :=
  GormCache kv 5000000000 [Models [VPtr (PtrTo "" "" User) (Some (Zero User))]].

(** A codec of one's own: it writes every value as the same text and reads
    nothing back. *)
Definition myCodec : Codec :=
  mkCodec (fun _ => ("<mine>", None)) (fun _ dest => (dest, None)).

End sample.

(** * Properties *)

(** ** Registration and eligibility *)

Section registration.

Context {E : Env}.

(** What [Models] leaves in the map: a name is present once it is the name
    of some listed model, or was there before. *)
Lemma Models_fold_lookup (models : list reflect.value) (m0 : gmap string bool)
    (n : string) :
  is_Some
    (fold_left (fun m item => <[reflect.Name (structType item) := true]> m)
               models m0 !! n)
  <-> is_Some (m0 !! n)
      \/ exists item, item ∈ models /\ reflect.Name (structType item) = n.
Proof.
  revert m0. induction models as [|x xs IH]; intros m0; simpl.
  - split; [by left|]. intros [H|(item & Hin & _)]; [done|].
    by apply elem_of_nil in Hin.
  - rewrite IH. split.
    + intros [H|(item & Hin & Hn)].
      * destruct (decide (reflect.Name (structType x) = n)) as [Heq|Hne].
        -- right. exists x. split; [apply list_elem_of_here|done].
        -- left. by rewrite lookup_insert_ne in H.
      * right. exists item. split; [by apply list_elem_of_further|done].
    + intros [H|(item & Hin & Hn)].
      * left. destruct (decide (reflect.Name (structType x) = n)) as [Heq|Hne].
        -- rewrite Heq, lookup_insert_eq. by eexists.
        -- by rewrite lookup_insert_ne.
      * apply elem_of_cons in Hin as [->|Hin].
        -- left. rewrite Hn, lookup_insert_eq. by eexists.
        -- right. by exists item.
Qed.

Lemma canCache_is_Some (g : GormCacher E) (db : gorm.DB) :
  canCache g db = true
  <-> is_Some
        (modelNames g
           !! reflect.Name (structType (gorm.ReflectValue (gorm.Statement db)))).
Proof.
  unfold canCache.
  destruct (modelNames g !! _) as [b|]; split; intros H; try done.
Qed.

(** After [Models(models...)] a destination is cacheable exactly when the
    name of its element type is the name of the element type of one of the
    models. *)
Lemma canCache_Models (g : GormCacher E) (models : list reflect.value)
    (db : gorm.DB) :
  canCache (Models models g) db = true
  <-> exists item,
        item ∈ models
        /\ reflect.Name (structType item)
           = reflect.Name (structType (gorm.ReflectValue (gorm.Statement db))).
Proof.
  rewrite canCache_is_Some. unfold Models; simpl.
  rewrite Models_fold_lookup. split.
  - intros [H|H]; [|done]. rewrite lookup_empty in H. by destruct H.
  - intros H. by right.
Qed.

End registration.

(** C10. Eligibility looks at nothing but the bare name of the element type
    that [structType] reaches: two destinations with the same such name are
    treated alike by any cacher, and after [Models(..., T, ...)] every
    destination whose element type is named like that of [T] is cacheable,
    whatever package the type comes from. *)
Theorem canCache_by_bare_name (E : Env) :
  (forall (g : GormCacher E) (db1 db2 : gorm.DB),
     reflect.Name (structType (gorm.ReflectValue (gorm.Statement db1)))
     = reflect.Name (structType (gorm.ReflectValue (gorm.Statement db2))) ->
     canCache g db1 = canCache g db2)
  /\ (forall (g : GormCacher E) (models : list reflect.value)
             (T : reflect.value) (db : gorm.DB),
        T ∈ models ->
        reflect.Name (structType (gorm.ReflectValue (gorm.Statement db)))
        = reflect.Name (structType T) ->
        canCache (Models models g) db = true).
Proof.
  split.
  - intros g db1 db2 Hn. unfold canCache. by rewrite Hn.
  - intros g models T db Hin Hn. apply canCache_Models. by exists T.
Qed.

(** A [[]*User] of package example.com/admin is cacheable once package
    main's [User] is registered, and is told apart from it by nothing. *)
Lemma canCache_by_bare_name_witness :
  let T := reflect.VPtr (reflect.PtrTo "" "" sample.User)
                        (Some (reflect.Zero sample.User)) in
  let dest :=
    reflect.VSlice
      (reflect.SliceOf "" "" (reflect.PtrTo "" "" sample.adminUser)) [] in
  let db := sample.db dest sample.adminUser "SELECT * FROM admins" in
  reflect.PkgPath (structType dest) <> reflect.PkgPath (structType T)
  /\ canCache (sample.cacher memKV) db
     = canCache (sample.cacher memKV)
         (sample.db (reflect.Zero sample.User) sample.User "SELECT 1")
  /\ canCache (Models [T] (sample.cacher memKV)) db = true.
Proof.
  intros T dest db. split; [discriminate|]. split.
  - apply (proj1 (canCache_by_bare_name memEnv)). reflexivity.
  - apply (proj2 (canCache_by_bare_name memEnv) _ _ T).
    + apply list_elem_of_here.
    + reflexivity.
Defined.

(** ** Initialization *)

(** C9. With no model name registered, [Initialize] returns the plugin's
    error at once: the callback processor is left as it was, whatever the
    two registrations would have done. *)
Theorem Initialize_without_models (E : Env) (Processor : Type)
    (Replace : string -> handler -> Processor -> option error * Processor)
    (AfterRegister :
       string -> string -> handler -> Processor -> option error * Processor)
    (g : GormCacher E) (p : Processor) :
  size (modelNames g) = 0%nat ->
  Initialize Processor Replace AfterRegister g p
  = (Some (ErrGormCache
             (errors.New "call `Models` to add model that needs to be cached")),
     p).
Proof.
  intros Hempty. unfold Initialize.
  rewrite bool_decide_eq_true_2 by done. reflexivity.
Qed.

(** A processor that records the names it is given; neither a cacher built
    without [Models] nor one built with [Models()] reaches it. *)
Lemma Initialize_without_models_witness :
  let record := fun (name : string) (_ : @handler memEnv) (p : list string) =>
                  (@None error, name :: p) in
  let g := GormCache memKV 5000000000 [] in
  size (modelNames g) = 0%nat
  /\ Initialize (list string) record (fun _ => record) g []
     = (Some (ErrGormCache
                (errors.New "call `Models` to add model that needs to be cached")),
        []).
Proof.
  intros record g. split; [reflexivity|].
  apply (Initialize_without_models memEnv (list string) record
           (fun _ => record) g []).
  reflexivity.
Defined.

(** ** The read path *)

Section read_path.

Context {E : Env}.

Lemma kvCalls_app (tr1 tr2 : list event) :
  kvCalls (tr1 ++ tr2) = (kvCalls tr1 ++ kvCalls tr2)%list.
Proof. apply List.filter_app. Qed.

Lemma connQueries_app (tr1 tr2 : list event) :
  connQueries (tr1 ++ tr2) = (connQueries tr1 ++ connQueries tr2)%list.
Proof. apply List.filter_app. Qed.

(** With the empty cache key [queryFromDB] goes to the connection at once:
    one query, nothing else, and the store is not involved. *)
Lemma queryFromDB_direct (g : GormCacher E) (db : gorm.DB) (w : World E) :
  trace (queryFromDB g db "" w).2
  = (trace w ++ [ConnQuery (gorm.SQL (gorm.Statement db))
                           (gorm.Vars (gorm.Statement db))])%list
  /\ kvs (queryFromDB g db "" w).2 = kvs w.
Proof.
  unfold queryFromDB. destruct (decide ("" = "")) as [_|Hne]; [|done].
  unfold connQuery.
  destruct (QueryContext E _ _ _ _) as [[rows err] c].
  destruct err; simpl; done.
Qed.

(** [queryAfter] stops before the store when the destination is not
    cacheable, tagged context or not. *)
Lemma queryAfter_ineligible (g : GormCacher E) (db : gorm.DB) (w : World E) :
  canCache g db = false -> queryAfter g db w = (db, w).
Proof.
  intros Hno. unfold queryAfter.
  destruct (context.Value _ _); [|done].
  rewrite Hno. simpl. by rewrite !orb_true_r.
Qed.

End read_path.

(** C2. When the name of the destination's record type is not registered,
    neither callback reaches the store: [query] (which looks at the
    destination once gorm has built the SQL) and [queryAfter] (on whatever
    gorm hands it afterwards) add no [Get] and no [Set] to the trace and
    leave the store's state alone; a query that is neither a dry run nor
    already failed goes to the connection, once. *)
Theorem ineligible_query_never_reaches_store (E : Env) (g : GormCacher E)
    (db db' : gorm.DB) (w w' : World E) :
  canCache g (BuildQuerySQL E db) = false ->
  canCache g db' = false ->
  (kvCalls (trace (query g db w).2) = kvCalls (trace w)
   /\ kvs (query g db w).2 = kvs w)
  /\ (kvCalls (trace (queryAfter g db' w').2) = kvCalls (trace w')
      /\ kvs (queryAfter g db' w').2 = kvs w')
  /\ (gorm.DryRun db = false -> gorm.Error db = None ->
      trace (query g db w).2
      = (trace w
         ++ [ConnQuery (gorm.SQL (gorm.Statement (BuildQuerySQL E db)))
                       (gorm.Vars (gorm.Statement (BuildQuerySQL E db)))])%list).
Proof.
  intros Hq Ha. split; [|split].
  - unfold query.
    destruct (gorm.DryRun db || bool_decide (is_Some (gorm.Error db)));
      [done|].
    rewrite Hq.
    destruct (queryFromDB_direct g (BuildQuerySQL E db) w) as [Ht Hk].
    rewrite Ht, Hk, kvCalls_app. simpl. by rewrite app_nil_r.
  - by rewrite queryAfter_ineligible.
  - intros Hdry Herr. unfold query. rewrite Hdry, Herr. simpl.
    rewrite Hq. apply queryFromDB_direct.
Qed.

(** An [Order] is queried through a cacher that knows [User] only. *)
Lemma ineligible_query_never_reaches_store_witness :
  let g := sample.cacher memKV in
  let db := sample.db (reflect.Zero sample.Order) sample.Order
                      "SELECT * FROM orders LIMIT 1" in
  let w := sample.world ∅ (reflect.VStruct sample.Order [("ID", reflect.VInt 4)]) in
  let db1 := (query g db w).1 in
  let w1 := (query g db w).2 in
  canCache g (BuildQuerySQL memEnv db) = false
  /\ canCache g db1 = false
  /\ kvCalls (trace (queryAfter g db1 w1).2) = []
  /\ trace w1 = [ConnQuery "SELECT * FROM orders LIMIT 1" []].
Proof.
  intros g db w db1 w1.
  pose proof (ineligible_query_never_reaches_store memEnv g db db1 w w1
                eq_refl eq_refl) as (_ & (Hafter & _) & Hdirect).
  split; [reflexivity|]. split; [reflexivity|]. split.
  - rewrite Hafter. reflexivity.
  - apply Hdirect; reflexivity.
Defined.

Section eligible_path.

Context {E : Env}.

(** The world after the store has answered a [Get] for [key]. *)
Definition afterGet (w : World E) (key : string) (s : KVState E) : World E :=
  mkWorld s (conn w) (trace w ++ [KvGet key]).

(** [query] on a cacheable destination, by the store's answer. *)
Lemma query_eligible (g : GormCacher E) (db : gorm.DB) (w : World E)
    (ok : bool) (value : string) (err : option error) (s : KVState E) :
  let db0 := BuildQuerySQL E db in
  let key := cacheKeyFunc g db0 in
  gorm.DryRun db = false ->
  gorm.Error db = None ->
  canCache g db0 = true ->
  Get (kv g) (gorm.Context (gorm.Statement db0)) key (kvs w)
  = ((ok, value, err), s) ->
  query g db w
  = match err with
    | Some e => (gorm.AddError db0 (Some (ErrGormCache e)), afterGet w key s)
    | None =>
        if ok then unmarshalToDB g value db0 (afterGet w key s)
        else queryFromDB g db0 key (afterGet w key s)
    end.
Proof.
  intros db0 key Hdry Herr Hcan Hget. unfold query.
  rewrite Hdry, Herr. simpl. fold db0. rewrite Hcan.
  unfold kvGet. fold key. rewrite Hget. by destruct err.
Qed.

(** [unmarshalToDB] sends nothing to the connection and does not touch the
    store. *)
Lemma unmarshalToDB_world (g : GormCacher E) (value : string) (db : gorm.DB)
    (w : World E) :
  connQueries (trace (unmarshalToDB g value db w).2) = connQueries (trace w)
  /\ kvCalls (trace (unmarshalToDB g value db w).2) = kvCalls (trace w)
  /\ conn (unmarshalToDB g value db w).2 = conn w
  /\ kvs (unmarshalToDB g value db w).2 = kvs w.
Proof.
  unfold unmarshalToDB.
  destruct (Unmarshal (json E) value _) as [dest [e|]]; [done|].
  destruct (reflect.KindOf _); simpl;
    rewrite ?connQueries_app, ?kvCalls_app, ?app_nil_r; done.
Qed.

(** What [unmarshalToDB] leaves in the [DB], by the outcome of decoding. *)
Lemma unmarshalToDB_db (g : GormCacher E) (value : string) (db : gorm.DB)
    (w : World E) (dest : reflect.value) (err : option error) :
  Unmarshal (json E) value (gorm.ReflectValue (gorm.Statement db))
  = (dest, err) ->
  let db' := (unmarshalToDB g value db w).1 in
  gorm.ReflectValue (gorm.Statement db') = dest
  /\ match err with
     | Some e =>
         gorm.RowsAffected db' = gorm.RowsAffected db
         /\ gorm.Error db'
            = gorm.Error (gorm.AddError db (Some e))
     | None =>
         gorm.Error db' = gorm.Error db
         /\ gorm.RowsAffected db'
            = match reflect.KindOf (gorm.ReflectValue (gorm.Statement db)) with
              | reflect.Struct => 1
              | reflect.Slice | reflect.Array => Z.of_nat (reflect.Len dest)
              | _ => gorm.RowsAffected db
              end
     end.
Proof.
  intros Hdec db'. subst db'. unfold unmarshalToDB. rewrite Hdec.
  destruct err as [e|].
  - unfold gorm.AddError. simpl. by destruct (gorm.Error db).
  - by destruct (reflect.KindOf _).
Qed.

End eligible_path.

(** The statement of C4 as written: on a hit the destination holds what
    the decoder left there, the row count is 1 for a struct and the number
    of decoded elements for a slice or array, and no query is sent. *)
Definition hitSetsRowCount (E : Env) (g : GormCacher E) (db : gorm.DB)
    (w : World E) : Prop :=
  let db0 := BuildQuerySQL E db in
  let rv := gorm.ReflectValue (gorm.Statement db0) in
  forall (value : string) (s : KVState E),
    gorm.DryRun db = false ->
    gorm.Error db = None ->
    canCache g db0 = true ->
    Get (kv g) (gorm.Context (gorm.Statement db0)) (cacheKeyFunc g db0) (kvs w)
    = ((true, value, None), s) ->
    let db' := (query g db w).1 in
    gorm.ReflectValue (gorm.Statement db') = (Unmarshal (json E) value rv).1
    /\ (reflect.KindOf rv = reflect.Struct -> gorm.RowsAffected db' = 1)
    /\ (reflect.KindOf rv = reflect.Slice \/ reflect.KindOf rv = reflect.Array ->
        gorm.RowsAffected db'
        = Z.of_nat (reflect.Len (gorm.ReflectValue (gorm.Statement db'))))
    /\ connQueries (trace (query g db w).2) = connQueries (trace w).

(** C4, as the code has it. On a hit no query is sent to the connection and
    the destination holds what the decoder left there; when decoding
    succeeds the row count is 1 for a struct and the number of decoded
    elements for a slice or array and the query carries no error; when
    decoding fails its error is added to the query and the row count is
    left as it was. *)
Theorem cache_hit_decodes_and_counts (E : Env) (g : GormCacher E)
    (db : gorm.DB) (w : World E) (value : string) (s : KVState E) :
  let db0 := BuildQuerySQL E db in
  let rv := gorm.ReflectValue (gorm.Statement db0) in
  gorm.DryRun db = false ->
  gorm.Error db = None ->
  canCache g db0 = true ->
  Get (kv g) (gorm.Context (gorm.Statement db0)) (cacheKeyFunc g db0) (kvs w)
  = ((true, value, None), s) ->
  let db' := (query g db w).1 in
  let w' := (query g db w).2 in
  connQueries (trace w') = connQueries (trace w)
  /\ conn w' = conn w
  /\ gorm.ReflectValue (gorm.Statement db') = (Unmarshal (json E) value rv).1
  /\ ((Unmarshal (json E) value rv).2 = None ->
      gorm.Error db' = gorm.Error db0
      /\ (reflect.KindOf rv = reflect.Struct -> gorm.RowsAffected db' = 1)
      /\ (reflect.KindOf rv = reflect.Slice \/ reflect.KindOf rv = reflect.Array ->
          gorm.RowsAffected db'
          = Z.of_nat (reflect.Len (gorm.ReflectValue (gorm.Statement db')))))
  /\ (forall e, (Unmarshal (json E) value rv).2 = Some e ->
      gorm.Error db' = gorm.Error (gorm.AddError db0 (Some e))
      /\ gorm.RowsAffected db' = gorm.RowsAffected db0).
Proof.
  intros db0 rv Hdry Herr Hcan Hget db' w'. subst db' w'.
  rewrite (query_eligible g db w true value None s Hdry Herr Hcan Hget).
  fold db0.
  destruct (unmarshalToDB_world g value db0 (afterGet w (cacheKeyFunc g db0) s))
    as (Hq & _ & Hc & _).
  destruct (Unmarshal (json E) value rv) as [dest err] eqn:Hdec.
  destruct (unmarshalToDB_db g value db0 (afterGet w (cacheKeyFunc g db0) s)
              dest err Hdec) as [Hrv Hrest].
  split; [|split; [|split; [|split]]].
  - rewrite Hq. simpl. rewrite connQueries_app. simpl. by rewrite app_nil_r.
  - by rewrite Hc.
  - by rewrite Hrv.
  - simpl. intros ->. destruct Hrest as [He Hn]. split; [done|]. fold rv in Hn.
    split.
    + intros Hk. by rewrite Hn, Hk.
    + intros [Hk|Hk]; by rewrite Hn, Hk, Hrv.
  - simpl. intros e ->. by destruct Hrest.
Qed.

(** Two users are in the store under the statement's text; a query for
    them is answered from there, counted, and never sent. *)
Lemma cache_hit_decodes_and_counts_witness :
  let payload :=
    stdjson.render
      (stdjson.JArr
         [stdjson.JObj [("ID", stdjson.JNum 1 0); ("Name", stdjson.JStr "Ann")];
          stdjson.JObj [("ID", stdjson.JNum 2 0); ("Name", stdjson.JStr "Bob")]]) in
  let store : gmap string string := {[ "SELECT * FROM users" := payload ]} in
  let g := sample.cacher memKV in
  let users := reflect.SliceOf "" "" sample.User in
  let db := sample.db (reflect.Zero users) sample.User "SELECT * FROM users" in
  let w := sample.world store (reflect.Zero users) in
  gorm.RowsAffected (query g db w).1 = 2
  /\ gorm.ReflectValue (gorm.Statement (query g db w).1)
     = reflect.VSlice users
         [sample.user 1 "Ann" (reflect.Dec 0 0);
          sample.user 2 "Bob" (reflect.Dec 0 0)]
  /\ connQueries (trace (query g db w).2) = [].
Proof.
  intros payload store g users db w.
  pose proof (cache_hit_decodes_and_counts memEnv g db w payload store
                eq_refl eq_refl eq_refl eq_refl)
    as (Hq & _ & Hrv & Hok & _).
  destruct (Hok eq_refl) as (_ & _ & Hn).
  split; [|split].
  - rewrite Hn by (left; reflexivity). rewrite Hrv. reflexivity.
  - rewrite Hrv. reflexivity.
  - rewrite Hq. reflexivity.
Defined.

(** The store answers "found" with a text that is no JSON at all: the
    struct destination does not get its row count of 1. *)
Lemma cache_hit_undecodable_payload :
  let store : gmap string string := {[ "SELECT * FROM users LIMIT 1" := "oops" ]} in
  let db := sample.db (reflect.Zero sample.User) sample.User
                      "SELECT * FROM users LIMIT 1" in
  ~ hitSetsRowCount memEnv (sample.cacher memKV) db
      (sample.world store sample.mike).
Proof.
  intros store db H.
  destruct (H "oops" store eq_refl eq_refl eq_refl eq_refl) as (_ & Hone & _).
  specialize (Hone eq_refl). vm_compute in Hone. discriminate Hone.
Qed.

(** C5. When the store's [Get] fails on a cacheable query, the query ends
    with that error wrapped as the plugin's (behind whatever error building
    the SQL had left): nothing is sent to the connection and the
    destination and the row count stay as they were. *)
Theorem store_error_fails_query (E : Env) (g : GormCacher E) (db : gorm.DB)
    (w : World E) (ok : bool) (value : string) (e : error) (s : KVState E) :
  let db0 := BuildQuerySQL E db in
  gorm.DryRun db = false ->
  gorm.Error db = None ->
  canCache g db0 = true ->
  Get (kv g) (gorm.Context (gorm.Statement db0)) (cacheKeyFunc g db0) (kvs w)
  = ((ok, value, Some e), s) ->
  let db' := (query g db w).1 in
  let w' := (query g db w).2 in
  gorm.Error db'
  = Some (match gorm.Error db0 with
          | None => ErrGormCache e
          | Some prev => wrapError prev (ErrGormCache e)
          end)
  /\ connQueries (trace w') = connQueries (trace w)
  /\ conn w' = conn w
  /\ gorm.Statement db' = gorm.Statement db0
  /\ gorm.RowsAffected db' = gorm.RowsAffected db0.
Proof.
  intros db0 Hdry Herr Hcan Hget db' w'. subst db' w'.
  rewrite (query_eligible g db w ok value (Some e) s Hdry Herr Hcan Hget).
  fold db0. unfold gorm.AddError. simpl.
  rewrite connQueries_app. simpl. rewrite app_nil_r.
  by destruct (gorm.Error db0).
Qed.

(** The store is down: the query for a user fails with the plugin's error
    and the database, which has the user, is not asked. *)
Lemma store_error_fails_query_witness :
  let g := sample.cacher downKV in
  let db := sample.db (reflect.Zero sample.User) sample.User
                      "SELECT * FROM users LIMIT 1" in
  let w := sample.world ∅ sample.mike in
  gorm.Error (query g db w).1
  = Some (ErrGormCache (errors.New "dial tcp: connection refused"))
  /\ connQueries (trace (query g db w).2) = []
  /\ gorm.ReflectValue (gorm.Statement (query g db w).1)
     = reflect.Zero sample.User.
Proof.
  intros g db w.
  pose proof (store_error_fails_query memEnv g db w false ""
                (errors.New "dial tcp: connection refused") ∅
                eq_refl eq_refl eq_refl eq_refl)
    as (He & Hq & _ & Hst & _).
  split; [|split].
  - rewrite He. reflexivity.
  - rewrite Hq. reflexivity.
  - rewrite Hst. reflexivity.
Defined.

(** ** The codec option *)

(** Neither callback, nor the encode and decode steps they call, depend on
    the codec a cacher carries: [WithCodec] changes the field and nothing
    that is ever done. *)
Lemma WithCodec_has_no_effect (E : Env) (c : Codec) (g : GormCacher E)
    (db : gorm.DB) (w : World E) (value : string) :
  codec (WithCodec c g) = c
  /\ queryResult (WithCodec c g) db w = queryResult g db w
  /\ unmarshalToDB (WithCodec c g) value db w = unmarshalToDB g value db w
  /\ query (WithCodec c g) db w = query g db w
  /\ queryAfter (WithCodec c g) db w = queryAfter g db w.
Proof. repeat split. Qed.

(** C1 fails on the code. A cacher is given a codec of its own, which
    encodes everything as one fixed text and decodes nothing: the encode
    step still produces the JSON object of package encoding/json, and the
    decode step still reads it back into the destination. *)
Theorem configured_codec_not_used :
  let g := GormCache memKV 5000000000
             [Models [sample.mike]; WithCodec sample.myCodec] in
  let db := sample.db sample.mike sample.User "SELECT * FROM users LIMIT 1" in
  let db0 := sample.db (reflect.Zero sample.User) sample.User
                       "SELECT * FROM users LIMIT 1" in
  let w := sample.world ∅ sample.mike in
  let m := structValueData context.Background
             (schema.Fields (parseSchema sample.User)) sample.mike in
  let payload :=
    stdjson.render
      (stdjson.JObj [("ID", stdjson.JNum 7 0); ("Name", stdjson.JStr "Mike");
                     ("Score", stdjson.JNum 15 (-1))]) in
  codec g = sample.myCodec
  /\ Marshal (codec g) (MapOf m) = ("<mine>", None)
  /\ queryResult g db w = Some ((true, payload, None), w)
  /\ Unmarshal (codec g) payload (reflect.Zero sample.User)
     = (reflect.Zero sample.User, None)
  /\ gorm.ReflectValue (gorm.Statement (unmarshalToDB g payload db0 w).1)
     = sample.mike.
Proof. repeat split; reflexivity. Qed.

(** ** The encode step *)

(** The struct case of [queryResult]. *)
Lemma queryResult_struct (E : Env) (g : GormCacher E) (db : gorm.DB)
    (w : World E) (sch : schema.Schema) :
  gorm.Schema (gorm.Statement db) = Some sch ->
  reflect.KindOf (gorm.ReflectValue (gorm.Statement db)) = reflect.Struct ->
  let r :=
    Marshal (json E)
      (MapOf (structValueData (gorm.Context (gorm.Statement db))
                (schema.Fields sch) (gorm.ReflectValue (gorm.Statement db)))) in
  queryResult g db w = Some ((true, r.1, r.2), w).
Proof.
  intros Hsch Hk. unfold queryResult. rewrite Hsch, Hk.
  by destruct (Marshal _ _).
Qed.

(** The statement of C8 as written: an unsupported kind is skipped softly,
    and [ok = true] never comes with an error. *)
Definition encodeOutcomeSpec (E : Env) (g : GormCacher E) (db : gorm.DB)
    (w : World E) : Prop :=
  let k := reflect.KindOf (gorm.ReflectValue (gorm.Statement db)) in
  forall ok payload err w',
    queryResult g db w = Some ((ok, payload, err), w') ->
    (k <> reflect.Struct -> k <> reflect.Slice -> k <> reflect.Array ->
     ok = false /\ payload = "" /\ err = None)
    /\ ~ (ok = true /\ is_Some err).

(** A user whose score is not a number: encoding fails, and [queryResult]
    reports the failure with [ok = true]. *)
Lemma queryResult_ok_with_error :
  let nan := sample.user 7 "Mike" reflect.NaN in
  ~ encodeOutcomeSpec memEnv (sample.cacher memKV)
      (sample.db nan sample.User "SELECT * FROM users LIMIT 1")
      (sample.world ∅ nan).
Proof.
  intros nan H.
  destruct (H true "" (Some (stdjson.unsupported "NaN")) _ eq_refl) as [_ Hno].
  apply Hno. split; [done|by eexists].
Qed.

(** C8, as the code has it. On a statement with a schema, a destination
    that is neither a struct nor a slice or array is skipped: [ok = false],
    the empty payload, no error (and a line in the log). For a struct,
    slice or array [ok] is [true] whatever happens, and payload and error
    are what [json.Marshal] returned for the field map, or the list of
    field maps: a marshalling failure comes back as [ok = true] with the
    error. *)
Theorem queryResult_outcome (E : Env) (g : GormCacher E) (db : gorm.DB)
    (w : World E) (sch : schema.Schema) :
  gorm.Schema (gorm.Statement db) = Some sch ->
  let rv := gorm.ReflectValue (gorm.Statement db) in
  let ctx := gorm.Context (gorm.Statement db) in
  let k := reflect.KindOf rv in
  (k <> reflect.Struct -> k <> reflect.Slice -> k <> reflect.Array ->
   queryResult g db w = Some ((false, "", None), emit w (LoggerInfo k)))
  /\ (k = reflect.Struct ->
      let r := Marshal (json E) (MapOf (structValueData ctx (schema.Fields sch) rv)) in
      queryResult g db w = Some ((true, r.1, r.2), w))
  /\ (k = reflect.Slice \/ k = reflect.Array ->
      let r := Marshal (json E)
                 (SliceOfMaps (sliceValueData ctx (schema.Fields sch) rv)) in
      queryResult g db w = Some ((true, r.1, r.2), w)).
Proof.
  intros Hsch rv ctx k. unfold queryResult. rewrite Hsch. fold rv ctx k.
  split; [|split].
  - intros H1 H2 H3. by destruct k.
  - intros ->. by destruct (Marshal _ _).
  - intros [-> | ->]; by destruct (Marshal _ _).
Qed.

(** An integer destination is skipped; a user whose score is not a number
    comes back as [ok = true] with the encoder's error. *)
Lemma queryResult_outcome_witness :
  let g := sample.cacher memKV in
  let nan := sample.user 7 "Mike" reflect.NaN in
  let w := sample.world ∅ nan in
  queryResult g (sample.db (reflect.VInt 3) sample.User "SELECT count(*)") w
  = Some ((false, "", None), emit w (LoggerInfo reflect.Int))
  /\ queryResult g (sample.db nan sample.User "SELECT * FROM users LIMIT 1") w
     = Some ((true, "", Some (stdjson.unsupported "NaN")), w).
Proof.
  intros g nan w. split.
  - apply (proj1 (queryResult_outcome memEnv g
                    (sample.db (reflect.VInt 3) sample.User "SELECT count(*)")
                    w (parseSchema sample.User) eq_refl)); discriminate.
  - apply (proj1 (proj2 (queryResult_outcome memEnv g
                    (sample.db nan sample.User "SELECT * FROM users LIMIT 1")
                    w (parseSchema sample.User) eq_refl))).
    reflexivity.
Defined.

(** [queryAfter] expects that outcome: the encoder's error is added to the
    query as the plugin's, and the store is not written. *)
Lemma queryAfter_marshal_error (E : Env) (g : GormCacher E) (db : gorm.DB)
    (w w1 : World E) (n : Z) (sch : schema.Schema) (value : string) (e : error) :
  context.Value (gorm.Context (gorm.Statement db)) context.nocachectx = Some n ->
  gorm.Error db = None ->
  gorm.Schema (gorm.Statement db) = Some sch ->
  canCache g db = true ->
  queryResult g db w = Some ((true, value, Some e), w1) ->
  queryAfter g db w = (gorm.AddError db (Some (ErrGormCache e)), w1).
Proof.
  intros Hctx Herr Hsch Hcan Hres. unfold queryAfter.
  rewrite Hctx, Herr, Hsch, Hcan, Hres. reflexivity.
Qed.

(** ** Round trips *)

Section struct_round_trip.

(** What the loop of the struct case leaves under a name: the value of that
    field of the record, unless it is zero. *)
Definition fieldEntry (r : reflect.value) (name : string) : option reflect.value :=
  match reflect.Indirect r ≫= (fun s => reflect.FieldByName s name) with
  | Some fv => if reflect.IsZero fv then None else Some fv
  | None => None
  end.

Lemma structValueStep_lookup (ctx : context.Context) (r : reflect.value)
    (x : string) (m0 : fieldMap) (n : string) :
  structValueStep ctx r m0 (plainField x) !! n
  = if decide (x = n) then
      match fieldEntry r n with Some v => Some v | None => m0 !! n end
    else m0 !! n.
Proof.
  unfold structValueStep, fieldEntry, plainField. simpl.
  destruct (decide (x = n)) as [->|Hne].
  - destruct (reflect.Indirect r ≫= _) as [fv|]; [|done].
    destruct (reflect.IsZero fv); [done|]. by rewrite lookup_insert_eq.
  - destruct (reflect.Indirect r ≫= _) as [fv|]; [|done].
    destruct (reflect.IsZero fv); [done|]. by rewrite lookup_insert_ne.
Qed.

Lemma structValueData_fold (ctx : context.Context) (r : reflect.value)
    (names : list string) (m0 : fieldMap) (n : string) :
  fold_left (structValueStep ctx r) (map plainField names) m0 !! n
  = if decide (n ∈ names) then
      match fieldEntry r n with Some v => Some v | None => m0 !! n end
    else m0 !! n.
Proof.
  revert m0. induction names as [|x xs IH]; intros m0.
  - destruct (decide (n ∈ [])) as [Hin|_]; [by apply elem_of_nil in Hin|done].
  - cbn [map fold_left]. rewrite IH, structValueStep_lookup. clear IH.
    destruct (decide (x = n)) as [->|Hne].
    + rewrite (decide_True (P := n ∈ n :: xs)) by apply list_elem_of_here.
      destruct (decide (n ∈ xs)); by destruct (fieldEntry r n).
    + assert (Hmem : n ∈ x :: xs <-> n ∈ xs).
      { rewrite elem_of_cons. split; [by intros [->|?]|by right]. }
      destruct (decide (n ∈ xs)) as [Hin|Hnin].
      * by rewrite (decide_True (P := n ∈ x :: xs)) by by apply Hmem.
      * by rewrite (decide_False (P := n ∈ x :: xs)) by by rewrite Hmem.
Qed.

(** The field map of a record under gorm's schema of its type: exactly the
    fields that are not zero, each under its Go name. *)
Lemma structValueData_lookup (ctx : context.Context) (t : reflect.rtype)
    (r : reflect.value) (n : string) :
  structValueData ctx (schema.Fields (parseSchema t)) r !! n
  = if decide (n ∈ map reflect.FieldName (stdjson.structFields t))
    then fieldEntry r n else None.
Proof.
  unfold structValueData, parseSchema. simpl.
  rewrite <- (map_map reflect.FieldName plainField).
  rewrite structValueData_fold, lookup_empty.
  destruct (decide _); [|done]. by destruct (fieldEntry r n).
Qed.

Lemma lookupField_map (f : string -> reflect.value -> reflect.value)
    (fs : list (string * reflect.value)) (n : string) :
  reflect.lookupField (map (fun nv => (nv.1, f nv.1 nv.2)) fs) n
  = f n <$> reflect.lookupField fs n.
Proof.
  induction fs as [|[k v] fs IH]; simpl; [done|].
  destruct (decide (k = n)) as [->|Hne]; [done|apply IH].
Qed.

Lemma lookupField_Zero (sfs : list (reflect.StructField reflect.rtype))
    (sf : reflect.StructField reflect.rtype) :
  NoDup (map reflect.FieldName sfs) ->
  sf ∈ sfs ->
  reflect.lookupField
    (map (fun f => (reflect.FieldName f, reflect.Zero (reflect.FieldType f))) sfs)
    (reflect.FieldName sf)
  = Some (reflect.Zero (reflect.FieldType sf)).
Proof.
  induction sfs as [|x xs IH]; intros Hnd Hin; simpl.
  - by apply elem_of_nil in Hin.
  - apply NoDup_cons in Hnd as [Hx Hnd].
    apply elem_of_cons in Hin as [->|Hin].
    + by rewrite decide_True.
    + rewrite decide_False; [by apply IH|].
      intros Heq. apply Hx. rewrite Heq.
      by apply list_elem_of_fmap_2.
Qed.

End struct_round_trip.

(** The statement of C6 as written, for a record [r] of the struct type
    [t] under gorm's schema of [t]: what [queryResult] encodes,
    [unmarshalToDB] decodes into a zero destination with every field of [r]
    back, a zero field as the zero value of its type. *)
Definition roundTripSpec (E : Env) (g : GormCacher E) (t : reflect.rtype)
    (r : reflect.value) : Prop :=
  forall (db db0 : gorm.DB) (w w0 w1 : World E) (payload : string),
    gorm.ReflectValue (gorm.Statement db) = r ->
    gorm.Schema (gorm.Statement db) = Some (parseSchema t) ->
    gorm.ReflectValue (gorm.Statement db0) = reflect.Zero t ->
    queryResult g db w = Some ((true, payload, None), w1) ->
    let decoded :=
      gorm.ReflectValue (gorm.Statement (unmarshalToDB g payload db0 w0).1) in
    forall sf v,
      sf ∈ stdjson.structFields t ->
      reflect.FieldByName r (reflect.FieldName sf) = Some v ->
      reflect.FieldByName decoded (reflect.FieldName sf)
      = Some (if reflect.IsZero v then reflect.Zero (reflect.FieldType sf) else v).

(** An [Account] keeps its e-mail address under the json name
    [email_address]; the payload has it under the Go name [Email], which
    the decoder does not know, and the address is lost. *)
Lemma round_trip_loses_tagged_field :
  ~ roundTripSpec memEnv (sample.cacher memKV) sample.Account
      (sample.account 1 "ann@example.com").
Proof.
  intros H.
  pose (r := sample.account 1 "ann@example.com").
  pose (payload :=
          stdjson.render
            (stdjson.JObj [("Email", stdjson.JStr "ann@example.com");
                           ("ID", stdjson.JNum 1 0)])).
  specialize (H (sample.db r sample.Account "SELECT * FROM accounts LIMIT 1")
                (sample.db (reflect.Zero sample.Account) sample.Account
                           "SELECT * FROM accounts LIMIT 1")
                (sample.world ∅ r) (sample.world ∅ r) (sample.world ∅ r)
                payload eq_refl eq_refl eq_refl eq_refl
                (reflect.mkStructField "Email" (Some "email_address")
                                       sample.string_)
                (reflect.VString "ann@example.com")).
  simpl in H.
  assert (Hin : reflect.mkStructField "Email" (Some "email_address") sample.string_
                ∈ stdjson.structFields sample.Account).
  { apply list_elem_of_further, list_elem_of_here. }
  specialize (H Hin eq_refl). vm_compute in H. discriminate H.
Qed.

(** C6, as the code has it. For a record of a struct type under gorm's
    schema of that type, and a codec that round-trips the record's field
    map into the zero value of the type (it decodes what it encoded by
    field name): what [queryResult] encodes, [unmarshalToDB] decodes into a
    zero destination with every field of the record back, a zero field as
    the zero value of its type. *)
Theorem sparse_round_trip (E : Env) (g : GormCacher E) (pkgPath name : string)
    (sfs : list (reflect.StructField reflect.rtype))
    (fs : list (string * reflect.value)) :
  let t := reflect.StructOf pkgPath name sfs in
  let r := reflect.VStruct t fs in
  NoDup (map reflect.FieldName sfs) ->
  (forall ctx,
     roundTrips (json E)
       (structValueData ctx (schema.Fields (parseSchema t)) r) (reflect.Zero t)) ->
  roundTripSpec E g t r.
Proof.
  intros t r Hnd Hrt db db0 w w0 w1 payload Hrv Hsch Hzero Hres decoded sf v
         Hin Hv.
  set (m := structValueData (gorm.Context (gorm.Statement db))
              (schema.Fields (parseSchema t)) r).
  assert (Hm : Marshal (json E) (MapOf m) = (payload, None)).
  { rewrite (queryResult_struct E g db w (parseSchema t) Hsch) in Hres
      by by rewrite Hrv.
    rewrite Hrv in Hres. fold m in Hres.
    destruct (Marshal (json E) (MapOf m)) as [val err]. simpl in Hres.
    congruence. }
  pose proof (Hrt _ payload Hm) as Hdec. fold m in Hdec.
  rewrite <- Hzero in Hdec at 1.
  destruct (unmarshalToDB_db g payload db0 w0 _ _ Hdec) as [Hd _].
  subst decoded. rewrite Hd. simpl.
  rewrite (lookupField_map (fun n v0 => default v0 (m !! n))).
  rewrite (lookupField_Zero sfs sf Hnd Hin). simpl. f_equal.
  unfold m. rewrite structValueData_lookup. simpl.
  rewrite decide_True by by apply list_elem_of_fmap_2.
  unfold fieldEntry. simpl. simpl in Hv. rewrite Hv. simpl.
  by destruct (reflect.IsZero v).
Qed.

(** A user without a name, through the reference codec: the id and the
    score come back, the name comes back empty. *)
Lemma sparse_round_trip_witness :
  let g := sample.cacher memKV in
  let r := sample.user 7 "" (reflect.Dec 15 (-1)) in
  let db := sample.db r sample.User "SELECT * FROM users LIMIT 1" in
  let db0 := sample.db (reflect.Zero sample.User) sample.User
                       "SELECT * FROM users LIMIT 1" in
  let w := sample.world ∅ r in
  let payload :=
    stdjson.render
      (stdjson.JObj [("ID", stdjson.JNum 7 0); ("Score", stdjson.JNum 15 (-1))]) in
  let decoded :=
    gorm.ReflectValue (gorm.Statement (unmarshalToDB g payload db0 w).1) in
  queryResult g db w = Some ((true, payload, None), w)
  /\ reflect.FieldByName decoded "ID" = Some (reflect.VInt 7)
  /\ reflect.FieldByName decoded "Name" = Some (reflect.VString "").
Proof.
  intros g r db db0 w payload decoded.
  assert (Hnd : NoDup (map reflect.FieldName sample.userFields)).
  { apply (bool_decide_unpack _). vm_compute. exact I. }
  assert (Hrt : forall ctx,
             roundTrips (json memEnv)
               (structValueData ctx (schema.Fields (parseSchema sample.User)) r)
               (reflect.Zero sample.User)).
  { intros ctx p Hp. vm_compute in Hp. injection Hp as <-. vm_compute.
    reflexivity. }
  pose proof (sparse_round_trip memEnv g "main" "User" sample.userFields
                [("ID", reflect.VInt 7); ("Name", reflect.VString "");
                 ("Score", reflect.VFloat (reflect.Dec 15 (-1)))]
                Hnd Hrt db db0 w w w payload eq_refl eq_refl eq_refl eq_refl)
    as H.
  split; [reflexivity|]. split.
  - apply (H (reflect.mkStructField "ID" None sample.int64) (reflect.VInt 7)).
    + apply list_elem_of_here.
    + reflexivity.
  - apply (H (reflect.mkStructField "Name" None sample.string_)
             (reflect.VString "")).
    + apply list_elem_of_further, list_elem_of_here.
    + reflexivity.
Defined.

(** ** Collections *)

Section slice_loop.

Variable ctx : context.Context.
Variable reflectValue : reflect.value.

Lemma sliceValueStep_length (field : schema.Field)
    (arr : list (option fieldMap)) (j : nat) :
  length (sliceValueStep ctx field reflectValue arr j) = length arr.
Proof.
  unfold sliceValueStep.
  destruct (reflect.Index reflectValue j) as [elem|]; [|done].
  destruct (schema.ValueOf field ctx elem) as [fv [|]]; [done|].
  destruct (arr !! j) as [[m|]|] eqn:Hj; rewrite ?Hj; [by rewrite length_insert| |done].
  destruct (<[j:=Some ∅]> arr !! j) as [[m|]|];
    by rewrite ?length_insert.
Qed.

(** A step at index [j] leaves the other slots alone. *)
Lemma sliceValueStep_other (field : schema.Field)
    (arr : list (option fieldMap)) (i j : nat) :
  i <> j -> sliceValueStep ctx field reflectValue arr j !! i = arr !! i.
Proof.
  intros Hne. unfold sliceValueStep.
  destruct (reflect.Index reflectValue j) as [elem|]; [|done].
  destruct (schema.ValueOf field ctx elem) as [fv [|]]; [done|].
  destruct (arr !! j) as [[m|]|] eqn:Hj; rewrite ?Hj;
    [by rewrite list_lookup_insert_ne| |done].
  destruct (<[j:=Some ∅]> arr !! j) as [[m|]|];
    by rewrite ?list_lookup_insert_ne.
Qed.

(** A step on a zero field changes nothing. *)
Lemma sliceValueStep_zero (field : schema.Field)
    (arr : list (option fieldMap)) (j : nat) :
  (forall elem, reflect.Index reflectValue j = Some elem ->
                (schema.ValueOf field ctx elem).2 = true) ->
  sliceValueStep ctx field reflectValue arr j = arr.
Proof.
  intros Hz. unfold sliceValueStep.
  destruct (reflect.Index reflectValue j) as [elem|]; [|done].
  specialize (Hz elem eq_refl).
  destruct (schema.ValueOf field ctx elem) as [fv z]. simpl in Hz. by subst z.
Qed.

Lemma sliceValueData_length (fields : list schema.Field) :
  length (sliceValueData ctx fields reflectValue) = reflect.Len reflectValue.
Proof.
  unfold sliceValueData.
  assert (Hinner : forall field l arr,
            length (fold_left (sliceValueStep ctx field reflectValue) l arr)
            = length arr).
  { intros field l. induction l as [|j l IH]; intros arr; [done|].
    cbn [fold_left]. by rewrite IH, sliceValueStep_length. }
  assert (Houter : forall l arr,
            length
              (fold_left
                 (fun valueArrData field =>
                    fold_left (sliceValueStep ctx field reflectValue)
                              (seq 0 (reflect.Len reflectValue)) valueArrData)
                 l arr)
            = length arr).
  { induction l as [|f l IH]; intros arr; [done|].
    cbn [fold_left]. by rewrite IH, Hinner. }
  by rewrite Houter, length_replicate.
Qed.

(** The slot of an element all of whose fields are zero is never
    allocated: it is still the nil map when the loops are done. *)
Lemma sliceValueData_all_zero (fields : list schema.Field) (i : nat)
    (elem : reflect.value) :
  reflect.Index reflectValue i = Some elem ->
  (forall field, field ∈ fields -> (schema.ValueOf field ctx elem).2 = true) ->
  sliceValueData ctx fields reflectValue !! i = Some None.
Proof.
  intros Hi Hz. unfold sliceValueData.
  assert (Hlt : (i < reflect.Len reflectValue)%nat).
  { unfold reflect.Index, reflect.Len in *.
    destruct reflectValue; try done; by apply lookup_lt_Some in Hi. }
  assert (Hinner : forall field, field ∈ fields -> forall l arr,
            fold_left (sliceValueStep ctx field reflectValue) l arr !! i
            = arr !! i).
  { intros field Hf l. induction l as [|j l IH]; intros arr; [done|].
    cbn [fold_left]. rewrite IH.
    destruct (decide (i = j)) as [<-|Hne]; [|by apply sliceValueStep_other].
    rewrite sliceValueStep_zero; [done|].
    intros x Hx. rewrite Hi in Hx. injection Hx as <-. by apply Hz. }
  assert (Houter : forall l, (forall field, field ∈ l -> field ∈ fields) ->
            forall arr,
            fold_left
              (fun valueArrData field =>
                 fold_left (sliceValueStep ctx field reflectValue)
                           (seq 0 (reflect.Len reflectValue)) valueArrData)
              l arr !! i
            = arr !! i).
  { induction l as [|f l IH]; intros Hsub arr; [done|].
    cbn [fold_left]. rewrite IH.
    - apply Hinner, Hsub, list_elem_of_here.
    - intros field Hf. by apply Hsub, list_elem_of_further. }
  rewrite Houter by done. by apply lookup_replicate_2.
Qed.

End slice_loop.

(** C7 fails on the code for an element whose fields are all zero. Three
    users are found through a [[]*User], the second with no field set: its
    slot in the list of field maps stays the nil map, which the encoder
    writes as [null], not as the empty object; read back, the second user
    is a nil pointer, where the query had produced a pointer to a zero
    [User]. Count and order are kept. *)
Theorem all_zero_element_encoded_as_null :
  let ptr := reflect.PtrTo "" "" sample.User in
  let users := reflect.SliceOf "" "" ptr in
  let ann := reflect.VPtr ptr (Some (sample.user 1 "Ann" (reflect.Dec 0 0))) in
  let nobody := reflect.VPtr ptr (Some (reflect.Zero sample.User)) in
  let cy := reflect.VPtr ptr (Some (sample.user 3 "Cy" (reflect.Dec 0 0))) in
  let found := reflect.VSlice users [ann; nobody; cy] in
  let g := sample.cacher memKV in
  let db := sample.db found sample.User "SELECT * FROM users" in
  let db0 := sample.db (reflect.Zero users) sample.User "SELECT * FROM users" in
  let w := sample.world ∅ found in
  let payload :=
    stdjson.render
      (stdjson.JArr
         [stdjson.JObj [("ID", stdjson.JNum 1 0); ("Name", stdjson.JStr "Ann")];
          stdjson.JNull;
          stdjson.JObj [("ID", stdjson.JNum 3 0); ("Name", stdjson.JStr "Cy")]]) in
  sliceValueData context.Background (schema.Fields (parseSchema sample.User)) found
  = [Some {[ "ID" := reflect.VInt 1; "Name" := reflect.VString "Ann" ]};
     None;
     Some {[ "ID" := reflect.VInt 3; "Name" := reflect.VString "Cy" ]}]
  /\ queryResult g db w = Some ((true, payload, None), w)
  /\ gorm.ReflectValue (gorm.Statement (unmarshalToDB g payload db0 w).1)
     = reflect.VSlice users [ann; reflect.VPtr ptr None; cy]
  /\ gorm.RowsAffected (unmarshalToDB g payload db0 w).1 = 3.
Proof. repeat split; reflexivity. Qed.

(** * Further properties of the code *)

(** ** [structType] *)

(** [t] is [T] behind any number of pointer types, named or not. *)
Inductive behindPtrs (T : reflect.rtype) : reflect.rtype -> Prop :=
| behind_here : behindPtrs T T
| behind_ptr (pkgPath name : string) (t : reflect.rtype) :
    behindPtrs T t -> behindPtrs T (reflect.PtrTo pkgPath name t).

Lemma stripPtr_behindPtrs (T t : reflect.rtype) :
  reflect.kind T <> reflect.Ptr -> behindPtrs T t -> stripPtr t = T.
Proof.
  intros HT H. induction H as [|p n t H IH]; [by destruct T|done].
Qed.

Lemma elemPastPtr_behindPtrs (T t : reflect.rtype) :
  reflect.kind T <> reflect.Ptr -> behindPtrs T t -> elemPastPtr t = T.
Proof.
  intros HT H. induction H as [|p n t H IH]; [by destruct T|done].
Qed.

(** A type as Go builds them: a type without an element type or fields
    has none of the kinds pointer, slice, array and struct. *)
Fixpoint wellKinded (t : reflect.rtype) : bool :=
  match t with
  | reflect.Basic k _ _ =>
      match k with
      | reflect.Ptr | reflect.Slice | reflect.Array | reflect.Struct => false
      | _ => true
      end
  | reflect.StructOf _ _ fs =>
      forallb (fun f => wellKinded (reflect.FieldType f)) fs
  | reflect.PtrTo _ _ e | reflect.SliceOf _ _ e | reflect.ArrayOf _ _ _ e =>
      wellKinded e
  end.

Lemma stripPtr_not_Ptr (t : reflect.rtype) :
  wellKinded t = true ->
  reflect.kind (stripPtr t) <> reflect.Ptr /\ wellKinded (stripPtr t) = true.
Proof.
  induction t as [k p n|p n fs|p n e IH|p n e IH|p n len e IH]; intros Hw;
    try done.
  - split; [|done]. simpl. intros ->. done.
  - by apply IH.
Qed.

Lemma elemPastPtr_not_Ptr (t : reflect.rtype) :
  wellKinded t = true -> reflect.kind (elemPastPtr t) <> reflect.Ptr.
Proof.
  induction t as [k p n|p n fs|p n e IH|p n e IH|p n len e IH]; intros Hw;
    try done.
  - simpl. intros ->. done.
  - by apply IH.
Qed.

(** X1. However a model or a destination wraps a record type [T] (itself
    no pointer, slice or array), [structType] finds [T]: behind pointers,
    and behind pointers to a slice or an array of [T] or of pointers to
    [T]. So [T], [*T], [[]T], [[]*T], [*[]*T] and [[4]T] all stand for the
    same model. *)
Theorem structType_unwraps (T : reflect.rtype) (val : reflect.value) :
  reflect.kind T <> reflect.Ptr ->
  reflect.kind T <> reflect.Slice ->
  reflect.kind T <> reflect.Array ->
  (behindPtrs T (reflect.TypeOf val)
   \/ (exists pkgPath name e,
         behindPtrs T e
         /\ behindPtrs (reflect.SliceOf pkgPath name e) (reflect.TypeOf val))
   \/ (exists pkgPath name len e,
         behindPtrs T e
         /\ behindPtrs (reflect.ArrayOf pkgPath name len e) (reflect.TypeOf val))) ->
  structType val = T.
Proof.
  intros HP HS HA [H|[(p & n & e & He & H)|(p & n & len & e & He & H)]];
    unfold structType.
  - rewrite (stripPtr_behindPtrs T _ HP H). by destruct T.
  - rewrite (stripPtr_behindPtrs (reflect.SliceOf p n e) _ ltac:(done) H).
    by apply elemPastPtr_behindPtrs.
  - rewrite (stripPtr_behindPtrs (reflect.ArrayOf p n len e) _ ltac:(done) H).
    by apply elemPastPtr_behindPtrs.
Qed.

(** A pointer to a slice of pointers to users stands for [User]. *)
Lemma structType_unwraps_witness :
  let ptr := reflect.PtrTo "" "" sample.User in
  let users := reflect.SliceOf "" "" ptr in
  structType (reflect.VPtr (reflect.PtrTo "" "" users) None) = sample.User.
Proof.
  intros ptr users.
  apply (structType_unwraps sample.User
           (reflect.VPtr (reflect.PtrTo "" "" users) None));
    [discriminate|discriminate|discriminate|].
  right. left. exists "", "", ptr. split.
  - apply behind_ptr, behind_here.
  - apply behind_ptr, behind_here.
Defined.

(** X2. On a type as Go builds them, what [structType] returns is never a
    pointer type; and it takes off one layer of slice or array only: the
    result is itself a slice or an array exactly when the value is a
    collection whose elements, past their pointers, are collections
    again. *)
Theorem structType_one_layer (val : reflect.value) :
  wellKinded (reflect.TypeOf val) = true ->
  reflect.kind (structType val) <> reflect.Ptr
  /\ (reflect.kind (structType val) = reflect.Slice
      \/ reflect.kind (structType val) = reflect.Array
      <-> exists e,
            (reflect.kind (stripPtr (reflect.TypeOf val)) = reflect.Slice
             \/ reflect.kind (stripPtr (reflect.TypeOf val)) = reflect.Array)
            /\ reflect.Elem (stripPtr (reflect.TypeOf val)) = Some e
            /\ (reflect.kind (elemPastPtr e) = reflect.Slice
                \/ reflect.kind (elemPastPtr e) = reflect.Array)).
Proof.
  intros Hw. unfold structType.
  destruct (stripPtr_not_Ptr (reflect.TypeOf val) Hw) as [Hs Hws].
  destruct (stripPtr (reflect.TypeOf val)) as [k p n|p n fs|p n e|p n e|p n len e];
    simpl in *.
  - split; [done|]. split.
    + intros [->| ->]; done.
    + intros (e & _ & He & _). done.
  - split; [done|]. split; [by intros [|]|]. intros (e & _ & He & _). done.
  - done.
  - split; [by apply elemPastPtr_not_Ptr|]. split.
    + intros H. exists e. split; [by left|]. by split.
    + intros (e' & _ & He & H). by injection He as <-.
  - split; [by apply elemPastPtr_not_Ptr|]. split.
    + intros H. exists e. split; [by right|]. by split.
    + intros (e' & _ & He & H). by injection He as <-.
Qed.

(** A slice of slices of users comes out as the inner slice type, which
    has no name: registering [User] does not make it cacheable. *)
Lemma structType_one_layer_witness :
  let users := reflect.SliceOf "" "" sample.User in
  let pages := reflect.VSlice (reflect.SliceOf "" "" users) [] in
  reflect.kind (structType pages) <> reflect.Ptr
  /\ reflect.kind (structType pages) = reflect.Slice
  /\ canCache (sample.cacher memKV) (sample.db pages sample.User "SELECT 1")
     = false.
Proof.
  intros users pages.
  destruct (structType_one_layer pages eq_refl) as [Hp Hs].
  split; [exact Hp|]. split; [reflexivity|reflexivity].
Defined.

(** ** Options and initialization *)

(** Options are applied in the order given. *)
Lemma GormCache_snoc (E : Env) (kv : CacheKV E) (exp : Z)
    (options : list (Option E)) (o : Option E) :
  GormCache kv exp (options ++ [o]) = o (GormCache kv exp options).
Proof. unfold GormCache. by rewrite fold_left_app. Qed.

(** X3. [Models] registers nothing exactly when it is given no model: the
    map it builds is empty if and only if the list of models is. *)
Theorem Models_empty_iff (E : Env) (g : GormCacher E)
    (models : list reflect.value) :
  size (modelNames (Models models g)) = 0%nat <-> models = [].
Proof.
  split.
  - intros Hsize. apply map_size_empty_iff in Hsize.
    destruct models as [|x xs]; [done|]. exfalso.
    assert (Hx : is_Some (modelNames (Models (x :: xs) g)
                            !! reflect.Name (structType x))).
    { unfold Models. cbn [modelNames]. apply Models_fold_lookup.
      right. exists x. split; [apply list_elem_of_here|done]. }
    rewrite Hsize, lookup_empty in Hx. by destruct Hx.
  - intros ->. reflexivity.
Qed.

(** X4. [Models] replaces the set of names, it does not add to it: with
    [Models(b...)] as the last option, whatever the options before it, a
    destination is cacheable exactly when its element type is named like
    that of one of [b]. *)
Theorem GormCache_last_Models_wins (E : Env) (kv : CacheKV E) (exp : Z)
    (options : list (Option E)) (b : list reflect.value) (db : gorm.DB) :
  canCache (GormCache kv exp (options ++ [Models b])) db = true
  <-> exists item,
        item ∈ b
        /\ reflect.Name (structType item)
           = reflect.Name (structType (gorm.ReflectValue (gorm.Statement db))).
Proof. rewrite GormCache_snoc. apply canCache_Models. Qed.

(** X5. Every error [Initialize] returns is one of the plugin's own
    ([ErrGormCache]); and it returns none only if a model is registered,
    replacing gorm:query by [query] succeeded, and registering
    [queryAfter] behind it, on the processor so changed, succeeded too. *)
Theorem Initialize_result (E : Env) (Processor : Type)
    (Replace : string -> handler -> Processor -> option error * Processor)
    (AfterRegister :
       string -> string -> handler -> Processor -> option error * Processor)
    (g : GormCacher E) (p : Processor) :
  match Initialize Processor Replace AfterRegister g p with
  | (Some e, _) => exists e0, e = ErrGormCache e0
  | (None, p') =>
      size (modelNames g) <> 0%nat
      /\ exists p1,
           Replace "gorm:query" (query g) p = (None, p1)
           /\ AfterRegister "gorm:query" (queryAfterRegisterName g)
                            (queryAfter g) p1 = (None, p')
  end.
Proof.
  unfold Initialize. case_bool_decide as Hsize; [by eexists|].
  destruct (Replace _ _ p) as [[e1|] p1] eqn:HR; [by eexists|].
  destruct (AfterRegister _ _ _ p1) as [[e2|] p2] eqn:HA; [by eexists|].
  split; [done|]. by exists p1.
Qed.

(** ** The miss path and the write-back *)

(** The statement with its context marked for [queryAfter]. *)
Definition tagged (db : gorm.DB) : gorm.DB :=
  gorm.withContext db
    (context.WithValue (gorm.Context (gorm.Statement db)) context.nocachectx 1).

(** The world after a query has been sent for the statement of [db]. *)
Definition afterQuery {E : Env} (w : World E) (db : gorm.DB) (c : ConnState E)
    : World E :=
  mkWorld (kvs w) c
    (trace w ++ [ConnQuery (gorm.SQL (gorm.Statement db))
                           (gorm.Vars (gorm.Statement db))]).

(** The world after the store has taken a [Set]. *)
Definition afterSet {E : Env} (w : World E) (key value : string) (exp : Z)
    (s : KVState E) : World E :=
  mkWorld s (conn w) (trace w ++ [KvSet key value exp]).

Section miss_path.

Context {E : Env}.

(** [queryFromDB], by the answer of the connection: the statement that is
    queried and scanned is the marked one unless the key is empty. *)
Lemma queryFromDB_run (g : GormCacher E) (db : gorm.DB) (cachekey : string)
    (w : World E) (rows : Rows E) (err : option error) (c : ConnState E) :
  let dbq := if decide (cachekey = "") then db else tagged db in
  QueryContext E (gorm.Context (gorm.Statement dbq))
    (gorm.SQL (gorm.Statement db)) (gorm.Vars (gorm.Statement db)) (conn w)
  = ((rows, err), c) ->
  queryFromDB g db cachekey w
  = (match err with
     | Some e => gorm.AddError dbq (Some e)
     | None => Scan E rows dbq
     end, afterQuery w db c).
Proof.
  intros dbq Hq. subst dbq. unfold queryFromDB, singleflight.Do, connQuery.
  destruct (decide (cachekey = "")) as [Hk|Hk].
  - rewrite Hq. by destruct err.
  - unfold tagged in *. simpl in *. rewrite Hq. by destruct err.
Qed.

Lemma query_miss (g : GormCacher E) (db : gorm.DB) (w : World E)
    (value : string) (s : KVState E) :
  let db0 := BuildQuerySQL E db in
  let key := cacheKeyFunc g db0 in
  gorm.DryRun db = false ->
  gorm.Error db = None ->
  canCache g db0 = true ->
  Get (kv g) (gorm.Context (gorm.Statement db0)) key (kvs w)
  = ((false, value, None), s) ->
  query g db w = queryFromDB g db0 key (afterGet w key s).
Proof.
  intros db0 key Hdry Herr Hcan Hget.
  by rewrite (query_eligible g db w false value None s Hdry Herr Hcan Hget).
Qed.

(** [queryAfter] once it has a payload: one [Set], whose error, if any, is
    added as the plugin's. *)
Lemma queryAfter_write_back (g : GormCacher E) (db : gorm.DB)
    (w w1 : World E) (n : Z) (sch : schema.Schema) (payload : string)
    (serr : option error) (s : KVState E) :
  context.Value (gorm.Context (gorm.Statement db)) context.nocachectx = Some n ->
  gorm.Error db = None ->
  gorm.Schema (gorm.Statement db) = Some sch ->
  canCache g db = true ->
  queryResult g db w = Some ((true, payload, None), w1) ->
  Set_ (kv g) (gorm.Context (gorm.Statement db)) (cacheKeyFunc g db) payload
       (exp g) (kvs w1) = (serr, s) ->
  queryAfter g db w
  = (gorm.AddError db (NewErrGormCache serr),
     afterSet w1 (cacheKeyFunc g db) payload (exp g) s).
Proof.
  intros Hctx Herr Hsch Hcan Hres Hset. unfold queryAfter, kvSet.
  rewrite Hctx, Herr, Hsch, Hcan, Hres. simpl. by rewrite Hset.
Qed.

Lemma unmarshalToDB_Context (g : GormCacher E) (value : string)
    (db : gorm.DB) (w : World E) :
  gorm.Context (gorm.Statement (unmarshalToDB g value db w).1)
  = gorm.Context (gorm.Statement db).
Proof.
  unfold unmarshalToDB.
  destruct (Unmarshal (json E) value _) as [dest [e|]].
  - unfold gorm.AddError. simpl. by destruct (gorm.Error db).
  - by destruct (reflect.KindOf _).
Qed.

End miss_path.

(** [query] on a miss with a non-empty key, by the answer of the
    connection. *)
Lemma query_miss_run (E : Env) (g : GormCacher E) (db : gorm.DB)
    (w : World E) (value : string) (s : KVState E) (rows : Rows E)
    (err : option error) (c : ConnState E) :
  let db0 := BuildQuerySQL E db in
  let key := cacheKeyFunc g db0 in
  gorm.DryRun db = false ->
  gorm.Error db = None ->
  canCache g db0 = true ->
  Get (kv g) (gorm.Context (gorm.Statement db0)) key (kvs w)
  = ((false, value, None), s) ->
  key <> "" ->
  QueryContext E (gorm.Context (gorm.Statement (tagged db0)))
    (gorm.SQL (gorm.Statement db0)) (gorm.Vars (gorm.Statement db0)) (conn w)
  = ((rows, err), c) ->
  query g db w
  = (match err with
     | Some e => gorm.AddError (tagged db0) (Some e)
     | None => Scan E rows (tagged db0)
     end,
     afterQuery (afterGet w key s) db0 c).
Proof.
  intros db0 key Hdry Herr Hcan Hget Hkey Hq.
  rewrite (query_miss g db w value s Hdry Herr Hcan Hget). fold db0 key.
  rewrite (queryFromDB_run g db0 key (afterGet w key s) rows err c);
    rewrite decide_False by done; done.
Qed.

(** An environment like [memEnv] whose database refuses every query. *)
Definition closedDbEnv : Env :=
  mkEnv (gmap string string) reflect.value reflect.value
    (fun db => db)
    (fun _ _ _ table =>
       ((table, Some (errors.New "sql: database is closed")), table))
    (fun rows db =>
       gorm.withRowsAffected (gorm.withReflectValue db rows) (rowCount rows))
    (fun sql _ => sql)
    stdjson.codec.

Definition closedDbKV : CacheKV closedDbEnv :=
  mkCacheKV closedDbEnv
    (fun _ key (s : gmap string string) =>
       match s !! key with
       | Some v => ((true, v, None), s)
       | None => ((false, "", None), s)
       end)
    (fun _ key value _ (s : gmap string string) => (None, <[key := value]> s)).

(** X6. A miss on a cacheable statement with a non-empty key: after the
    one [Get], the database is queried once, under the context marked for
    write-back; rows are scanned into the marked statement, and an error
    of the database is added as it is, not as the plugin's. *)
Theorem cache_miss_outcome (E : Env) (g : GormCacher E) (db : gorm.DB)
    (w : World E) (value : string) (s : KVState E) (rows : Rows E)
    (err : option error) (c : ConnState E) :
  let db0 := BuildQuerySQL E db in
  let key := cacheKeyFunc g db0 in
  gorm.DryRun db = false ->
  gorm.Error db = None ->
  canCache g db0 = true ->
  Get (kv g) (gorm.Context (gorm.Statement db0)) key (kvs w)
  = ((false, value, None), s) ->
  key <> "" ->
  QueryContext E (gorm.Context (gorm.Statement (tagged db0)))
    (gorm.SQL (gorm.Statement db0)) (gorm.Vars (gorm.Statement db0)) (conn w)
  = ((rows, err), c) ->
  query g db w
  = (match err with
     | Some e => gorm.AddError (tagged db0) (Some e)
     | None => Scan E rows (tagged db0)
     end,
     afterQuery (afterGet w key s) db0 c).
Proof. apply query_miss_run. Qed.

(** The first query for a user: a miss, then the database. *)
Lemma cache_miss_outcome_witness :
  let g := sample.cacher memKV in
  let db := sample.db (reflect.Zero sample.User) sample.User
                      "SELECT * FROM users LIMIT 1" in
  let w := sample.world ∅ sample.mike in
  gorm.ReflectValue (gorm.Statement (query g db w).1) = sample.mike
  /\ trace (query g db w).2
     = [KvGet "SELECT * FROM users LIMIT 1";
        ConnQuery "SELECT * FROM users LIMIT 1" []]
  /\ context.Value (gorm.Context (gorm.Statement (query g db w).1))
                   context.nocachectx = Some 1.
Proof.
  intros g db w.
  rewrite (cache_miss_outcome memEnv g db w "" ∅ sample.mike None sample.mike
             eq_refl eq_refl eq_refl eq_refl ltac:(discriminate) eq_refl).
  repeat split.
Defined.

(** X7. When the database fails on a miss, its error becomes the query's
    error unwrapped, the destination and the row count stay as they were,
    and [queryAfter] then does nothing: no [Set] follows a failed query. *)
Theorem failed_query_is_not_cached (E : Env) (g : GormCacher E) (db : gorm.DB)
    (w : World E) (value : string) (s : KVState E) (rows : Rows E)
    (e : error) (c : ConnState E) :
  let db0 := BuildQuerySQL E db in
  let key := cacheKeyFunc g db0 in
  gorm.DryRun db = false ->
  gorm.Error db = None ->
  gorm.Error db0 = None ->
  canCache g db0 = true ->
  Get (kv g) (gorm.Context (gorm.Statement db0)) key (kvs w)
  = ((false, value, None), s) ->
  key <> "" ->
  QueryContext E (gorm.Context (gorm.Statement (tagged db0)))
    (gorm.SQL (gorm.Statement db0)) (gorm.Vars (gorm.Statement db0)) (conn w)
  = ((rows, Some e), c) ->
  let db1 := (query g db w).1 in
  let w1 := (query g db w).2 in
  gorm.Error db1 = Some e
  /\ gorm.ReflectValue (gorm.Statement db1)
     = gorm.ReflectValue (gorm.Statement db0)
  /\ gorm.RowsAffected db1 = gorm.RowsAffected db0
  /\ queryAfter g db1 w1 = (db1, w1).
Proof.
  intros db0 key Hdry Herr Herr0 Hcan Hget Hkey Hq db1 w1. subst db1 w1.
  rewrite (query_miss_run E g db w value s rows (Some e) c
             Hdry Herr Hcan Hget Hkey Hq).
  fold db0. unfold gorm.AddError, tagged. simpl. rewrite Herr0. simpl.
  repeat split.
Qed.

(** The database is closed: the query for a user fails with the database's
    own error and nothing is written to the store afterwards. *)
Lemma failed_query_is_not_cached_witness :
  let g : GormCacher closedDbEnv :=
    GormCache closedDbKV 5000000000 [Models [sample.mike]] in
  let db := sample.db (reflect.Zero sample.User) sample.User
                      "SELECT * FROM users LIMIT 1" in
  let w : World closedDbEnv := mkWorld (E := closedDbEnv) ∅ sample.mike [] in
  gorm.Error (query g db w).1 = Some (errors.New "sql: database is closed")
  /\ queryAfter g (query g db w).1 (query g db w).2 = query g db w.
Proof.
  intros g db w.
  destruct (failed_query_is_not_cached closedDbEnv g db w "" ∅ sample.mike
              (errors.New "sql: database is closed") sample.mike
              eq_refl eq_refl eq_refl eq_refl eq_refl ltac:(discriminate)
              eq_refl) as (He & _ & _ & Ha).
  split; [exact He|]. rewrite Ha. by destruct (query g db w).
Defined.

(** X8. The write-back. When [queryAfter] gets a payload for a marked,
    error-free, cacheable statement with a schema, it calls [Set] once,
    with the key of the cache-key function, that payload and the
    configured expiry; an error of [Set] becomes the query's error as the
    plugin's, and the statement and the row count are not touched. *)
Theorem write_back_outcome (E : Env) (g : GormCacher E) (db : gorm.DB)
    (w w1 : World E) (n : Z) (sch : schema.Schema) (payload : string)
    (serr : option error) (s : KVState E) :
  context.Value (gorm.Context (gorm.Statement db)) context.nocachectx = Some n ->
  gorm.Error db = None ->
  gorm.Schema (gorm.Statement db) = Some sch ->
  canCache g db = true ->
  queryResult g db w = Some ((true, payload, None), w1) ->
  Set_ (kv g) (gorm.Context (gorm.Statement db)) (cacheKeyFunc g db) payload
       (exp g) (kvs w1) = (serr, s) ->
  let db' := (queryAfter g db w).1 in
  let w' := (queryAfter g db w).2 in
  trace w' = (trace w1 ++ [KvSet (cacheKeyFunc g db) payload (exp g)])%list
  /\ kvs w' = s
  /\ conn w' = conn w1
  /\ gorm.Error db' = NewErrGormCache serr
  /\ gorm.Statement db' = gorm.Statement db
  /\ gorm.RowsAffected db' = gorm.RowsAffected db.
Proof.
  intros Hctx Herr Hsch Hcan Hres Hset db' w'. subst db' w'.
  rewrite (queryAfter_write_back g db w w1 n sch payload serr s
             Hctx Herr Hsch Hcan Hres Hset).
  unfold gorm.AddError. simpl. destruct serr as [e|]; simpl; [|done].
  by rewrite Herr.
Qed.

(** After the miss of [cache_miss_outcome_witness], the user is stored
    under the statement's text. *)
Lemma write_back_outcome_witness :
  let g := sample.cacher memKV in
  let db := sample.db (reflect.Zero sample.User) sample.User
                      "SELECT * FROM users LIMIT 1" in
  let w := sample.world ∅ sample.mike in
  let payload :=
    stdjson.render
      (stdjson.JObj [("ID", stdjson.JNum 7 0); ("Name", stdjson.JStr "Mike");
                     ("Score", stdjson.JNum 15 (-1))]) in
  let after := queryAfter g (query g db w).1 (query g db w).2 in
  kvs after.2 = {[ "SELECT * FROM users LIMIT 1" := payload ]}
  /\ gorm.Error after.1 = None
  /\ kvCalls (trace after.2)
     = [KvGet "SELECT * FROM users LIMIT 1";
        KvSet "SELECT * FROM users LIMIT 1" payload 5000000000].
Proof.
  intros g db w payload after. subst after.
  destruct (write_back_outcome memEnv g (query g db w).1 (query g db w).2
              (query g db w).2 1 (parseSchema sample.User) payload None
              {[ "SELECT * FROM users LIMIT 1" := payload ]}
              eq_refl eq_refl eq_refl eq_refl eq_refl eq_refl)
    as (Ht & Hk & _ & He & _).
  split; [exact Hk|]. split; [exact He|]. rewrite Ht. reflexivity.
Defined.

(** X9. A hit is not written back. When a cacheable statement whose
    context is not yet marked is answered from the store, [queryAfter]
    leaves the query and the world as [query] left them: the entry is not
    stored again, so its expiry is not renewed by reads. *)
Theorem hit_is_not_rewritten (E : Env) (g : GormCacher E) (db : gorm.DB)
    (w : World E) (value : string) (s : KVState E) :
  let db0 := BuildQuerySQL E db in
  gorm.DryRun db = false ->
  gorm.Error db = None ->
  canCache g db0 = true ->
  Get (kv g) (gorm.Context (gorm.Statement db0)) (cacheKeyFunc g db0) (kvs w)
  = ((true, value, None), s) ->
  context.Value (gorm.Context (gorm.Statement db0)) context.nocachectx = None ->
  queryAfter g (query g db w).1 (query g db w).2 = query g db w.
Proof.
  intros db0 Hdry Herr Hcan Hget Hctx.
  rewrite (query_eligible g db w true value None s Hdry Herr Hcan Hget).
  fold db0. unfold queryAfter.
  rewrite unmarshalToDB_Context, Hctx. by destruct (unmarshalToDB _ _ _ _).
Qed.

(** With a user in the store, the query and its after-callback make one
    call to the store, the [Get]. *)
Lemma hit_is_not_rewritten_witness :
  let payload :=
    stdjson.render
      (stdjson.JObj [("ID", stdjson.JNum 7 0); ("Name", stdjson.JStr "Mike")]) in
  let store : gmap string string := {[ "SELECT * FROM users LIMIT 1" := payload ]} in
  let g := sample.cacher memKV in
  let db := sample.db (reflect.Zero sample.User) sample.User
                      "SELECT * FROM users LIMIT 1" in
  let w := sample.world store (reflect.Zero sample.User) in
  trace (queryAfter g (query g db w).1 (query g db w).2).2
  = [KvGet "SELECT * FROM users LIMIT 1"].
Proof.
  intros payload store g db w.
  rewrite (hit_is_not_rewritten memEnv g db w payload store
             eq_refl eq_refl eq_refl eq_refl eq_refl).
  reflexivity.
Defined.

(** X10. The empty cache key switches the write-back off. When the
    cache-key function gives the empty string for a cacheable statement
    whose context is not marked, the store is still asked (for the empty
    key), a miss goes to the database without marking the context, and
    [queryAfter] on the scanned statement, if scanning leaves the context
    alone, stores nothing. *)
Theorem empty_key_is_not_written_back (E : Env) (g : GormCacher E)
    (db : gorm.DB) (w : World E) (value : string) (s : KVState E)
    (rows : Rows E) (c : ConnState E) :
  let db0 := BuildQuerySQL E db in
  gorm.DryRun db = false ->
  gorm.Error db = None ->
  canCache g db0 = true ->
  cacheKeyFunc g db0 = "" ->
  Get (kv g) (gorm.Context (gorm.Statement db0)) "" (kvs w)
  = ((false, value, None), s) ->
  context.Value (gorm.Context (gorm.Statement db0)) context.nocachectx = None ->
  QueryContext E (gorm.Context (gorm.Statement db0))
    (gorm.SQL (gorm.Statement db0)) (gorm.Vars (gorm.Statement db0)) (conn w)
  = ((rows, None), c) ->
  gorm.Context (gorm.Statement (Scan E rows db0))
  = gorm.Context (gorm.Statement db0) ->
  query g db w = (Scan E rows db0, afterQuery (afterGet w "" s) db0 c)
  /\ queryAfter g (query g db w).1 (query g db w).2 = query g db w.
Proof.
  intros db0 Hdry Herr Hcan Hkey Hget Hctx Hq Hscan.
  assert (Hrun : query g db w
                 = (Scan E rows db0, afterQuery (afterGet w "" s) db0 c)).
  { rewrite (query_miss g db w value s Hdry Herr Hcan);
      fold db0; rewrite Hkey; [|done].
    by rewrite (queryFromDB_run g db0 "" (afterGet w "" s) rows None c). }
  split; [done|]. rewrite Hrun. unfold queryAfter. simpl.
  by rewrite Hscan, Hctx.
Qed.

(** A cacher whose key function always answers the empty string: the user
    is fetched and never stored. *)
Lemma empty_key_is_not_written_back_witness :
  let g := GormCache memKV 5000000000
             [Models [sample.mike]; CacheKeyFunc (fun _ => "")] in
  let db := sample.db (reflect.Zero sample.User) sample.User
                      "SELECT * FROM users LIMIT 1" in
  let w := sample.world ∅ sample.mike in
  let after := queryAfter g (query g db w).1 (query g db w).2 in
  gorm.ReflectValue (gorm.Statement after.1) = sample.mike
  /\ trace after.2 = [KvGet ""; ConnQuery "SELECT * FROM users LIMIT 1" []]
  /\ kvs after.2 = ∅.
Proof.
  intros g db w after. subst after.
  destruct (empty_key_is_not_written_back memEnv g db w "" ∅ sample.mike
              sample.mike eq_refl eq_refl eq_refl eq_refl eq_refl eq_refl
              eq_refl eq_refl) as [Hq Ha].
  rewrite Ha, Hq. repeat split.
Defined.

(** X11. A statement that has already failed is left alone by both
    callbacks, and a dry run by [query]: nothing is built, asked, sent or
    stored. *)
Theorem failed_statement_left_alone (E : Env) (g : GormCacher E)
    (db : gorm.DB) (w : World E) :
  (is_Some (gorm.Error db) ->
   query g db w = (db, w) /\ queryAfter g db w = (db, w))
  /\ (gorm.DryRun db = true -> query g db w = (db, w)).
Proof.
  split.
  - intros Herr. split.
    + unfold query. rewrite (bool_decide_eq_true_2 _ Herr).
      by rewrite orb_true_r.
    + unfold queryAfter. rewrite (bool_decide_eq_true_2 _ Herr). simpl.
      by destruct (context.Value _ _).
  - intros Hdry. unfold query. by rewrite Hdry.
Qed.

(** A statement that failed while it was built. *)
Lemma failed_statement_left_alone_witness :
  let g := sample.cacher memKV in
  let db := gorm.withError
              (sample.db (reflect.Zero sample.User) sample.User "SELECT")
              (Some (errors.New "unsupported data type")) in
  let w := sample.world ∅ sample.mike in
  query g db w = (db, w) /\ queryAfter g db w = (db, w).
Proof.
  intros g db w.
  apply (proj1 (failed_statement_left_alone memEnv g db w)).
  by eexists.
Defined.

(** X12. Miss, write-back, hit. A cacheable statement misses, is fetched
    from the database and scanned, encoded and stored without error; a
    second cacheable statement with the same key finds in the store what
    was set. Then over the three callbacks the database has been queried
    once, the store has seen [Get], [Set], [Get] for that key, and the
    second destination holds what the decoder makes of the stored
    payload. *)
Theorem miss_then_hit (E : Env) (g : GormCacher E) (db dbB : gorm.DB)
    (w : World E) (value payload : string) (s1 s2 s3 : KVState E)
    (rows : Rows E) (c : ConnState E) (sch : schema.Schema) (n : Z) :
  let db0 := BuildQuerySQL E db in
  let key := cacheKeyFunc g db0 in
  let db1 := Scan E rows (tagged db0) in
  let w1 := afterQuery (afterGet w key s1) db0 c in
  let dbB0 := BuildQuerySQL E dbB in
  gorm.DryRun db = false ->
  gorm.Error db = None ->
  canCache g db0 = true ->
  key <> "" ->
  Get (kv g) (gorm.Context (gorm.Statement db0)) key (kvs w)
  = ((false, value, None), s1) ->
  QueryContext E (gorm.Context (gorm.Statement (tagged db0)))
    (gorm.SQL (gorm.Statement db0)) (gorm.Vars (gorm.Statement db0)) (conn w)
  = ((rows, None), c) ->
  context.Value (gorm.Context (gorm.Statement db1)) context.nocachectx = Some n ->
  gorm.Error db1 = None ->
  gorm.Schema (gorm.Statement db1) = Some sch ->
  canCache g db1 = true ->
  cacheKeyFunc g db1 = key ->
  queryResult g db1 w1 = Some ((true, payload, None), w1) ->
  Set_ (kv g) (gorm.Context (gorm.Statement db1)) key payload (exp g) s1
  = (None, s2) ->
  gorm.DryRun dbB = false ->
  gorm.Error dbB = None ->
  canCache g dbB0 = true ->
  cacheKeyFunc g dbB0 = key ->
  Get (kv g) (gorm.Context (gorm.Statement dbB0)) key s2
  = ((true, payload, None), s3) ->
  let first := query g db w in
  let after := queryAfter g first.1 first.2 in
  let second := query g dbB after.2 in
  connQueries (trace second.2)
  = (connQueries (trace w)
     ++ [ConnQuery (gorm.SQL (gorm.Statement db0))
                   (gorm.Vars (gorm.Statement db0))])%list
  /\ kvCalls (trace second.2)
     = (kvCalls (trace w)
        ++ [KvGet key; KvSet key payload (exp g); KvGet key])%list
  /\ gorm.ReflectValue (gorm.Statement second.1)
     = (Unmarshal (json E) payload
          (gorm.ReflectValue (gorm.Statement dbB0))).1
  /\ gorm.Error after.1 = None.
Proof.
  intros db0 key db1 w1 dbB0 Hdry Herr Hcan Hkey Hget Hq Hctx Herr1 Hsch Hcan1
         Hkey1 Hres Hset HdryB HerrB HcanB HkeyB HgetB first after second.
  subst first after second.
  rewrite (query_miss_run E g db w value s1 rows None c
             Hdry Herr Hcan Hget Hkey Hq).
  fold db0 key db1 w1. cbn [fst snd].
  assert (Hset' : Set_ (kv g) (gorm.Context (gorm.Statement db1))
                    (cacheKeyFunc g db1) payload (exp g) (kvs w1) = (None, s2)).
  { by rewrite Hkey1. }
  rewrite (queryAfter_write_back g db1 w1 w1 n sch payload None s2
             Hctx Herr1 Hsch Hcan1 Hres Hset').
  rewrite Hkey1. cbn [fst snd NewErrGormCache gorm.AddError].
  assert (HgetB' :
    Get (kv g) (gorm.Context (gorm.Statement dbB0)) (cacheKeyFunc g dbB0)
        (kvs (afterSet w1 key payload (exp g) s2))
    = ((true, payload, None), s3)).
  { by rewrite HkeyB. }
  rewrite (query_eligible g dbB _ true payload None s3 HdryB HerrB HcanB HgetB').
  fold dbB0. rewrite HkeyB.
  destruct (unmarshalToDB_world g payload dbB0
              (afterGet (afterSet w1 key payload (exp g) s2) key s3))
    as (Hcq & Hkc & _ & _).
  destruct (Unmarshal (json E) payload
              (gorm.ReflectValue (gorm.Statement dbB0))) as [dest err] eqn:Hdec.
  destruct (unmarshalToDB_db g payload dbB0
              (afterGet (afterSet w1 key payload (exp g) s2) key s3)
              dest err Hdec) as [Hrv _].
  rewrite Hcq, Hkc, Hrv. unfold w1. simpl.
  rewrite !connQueries_app, !kvCalls_app. simpl.
  rewrite !app_nil_r, <- !app_assoc. done.
Qed.

(** A user is asked for twice: the database is asked once, and the second
    answer, from the store, is the user again. *)
Lemma miss_then_hit_witness :
  let g := sample.cacher memKV in
  let db := sample.db (reflect.Zero sample.User) sample.User
                      "SELECT * FROM users LIMIT 1" in
  let w := sample.world ∅ sample.mike in
  let first := query g db w in
  let after := queryAfter g first.1 first.2 in
  let second := query g db after.2 in
  connQueries (trace second.2) = [ConnQuery "SELECT * FROM users LIMIT 1" []]
  /\ gorm.ReflectValue (gorm.Statement second.1) = sample.mike.
Proof.
  intros g db w first after second. subst first after second.
  pose (payload :=
          stdjson.render
            (stdjson.JObj [("ID", stdjson.JNum 7 0); ("Name", stdjson.JStr "Mike");
                           ("Score", stdjson.JNum 15 (-1))])).
  pose (store := ({[ "SELECT * FROM users LIMIT 1" := payload ]}
                  : gmap string string)).
  destruct (miss_then_hit memEnv g db db w "" payload ∅ store store
              sample.mike sample.mike (parseSchema sample.User) 1
              eq_refl eq_refl eq_refl ltac:(discriminate) eq_refl eq_refl
              eq_refl eq_refl eq_refl eq_refl eq_refl eq_refl eq_refl
              eq_refl eq_refl eq_refl eq_refl eq_refl)
    as (Hq & _ & Hrv & _).
  split; [rewrite Hq; reflexivity|rewrite Hrv; reflexivity].
Defined.

(** ** The two encode loops *)

Section encode_loops.

Variable ctx : context.Context.

Lemma structValueStep_lookup_gen (r : reflect.value) (m0 : fieldMap)
    (f : schema.Field) (n : string) :
  structValueStep ctx r m0 f !! n
  = if decide (schema.Name f = n) then
      if (schema.ValueOf f ctx r).2 then m0 !! n
      else Some (schema.ValueOf f ctx r).1
    else m0 !! n.
Proof.
  unfold structValueStep.
  destruct (schema.ValueOf f ctx r) as [v [|]]; simpl.
  - by destruct (decide _).
  - destruct (decide (schema.Name f = n)) as [->|Hne].
    + by rewrite lookup_insert_eq.
    + by rewrite lookup_insert_ne.
Qed.

Lemma structValueData_fold_other (r : reflect.value)
    (fields : list schema.Field) (m0 : fieldMap) (n : string) :
  n ∉ map schema.Name fields ->
  fold_left (structValueStep ctx r) fields m0 !! n = m0 !! n.
Proof.
  revert m0. induction fields as [|f fs IH]; intros m0 Hn; [done|].
  cbn [fold_left]. cbn [map] in Hn. apply not_elem_of_cons in Hn as [Hf Hfs].
  rewrite IH by done. rewrite structValueStep_lookup_gen.
  by rewrite decide_False.
Qed.

Lemma structValueData_fold_field (r : reflect.value)
    (fields : list schema.Field) (m0 : fieldMap) (f : schema.Field) :
  NoDup (map schema.Name fields) ->
  f ∈ fields ->
  fold_left (structValueStep ctx r) fields m0 !! schema.Name f
  = if (schema.ValueOf f ctx r).2 then m0 !! schema.Name f
    else Some (schema.ValueOf f ctx r).1.
Proof.
  revert m0. induction fields as [|x xs IH]; intros m0 Hnd Hin.
  - by apply elem_of_nil in Hin.
  - cbn [fold_left]. cbn [map] in Hnd. apply NoDup_cons in Hnd as [Hx Hnd].
    apply elem_of_cons in Hin as [->|Hin].
    + rewrite structValueData_fold_other by done.
      rewrite structValueStep_lookup_gen. by rewrite decide_True.
    + rewrite IH by done. rewrite structValueStep_lookup_gen.
      rewrite decide_False; [done|].
      intros Heq. apply Hx. rewrite Heq. by apply list_elem_of_fmap_2.
Qed.

(** Zero fields leave the map as it is. *)
Lemma structValueData_fold_zero (r : reflect.value)
    (fields : list schema.Field) (m0 : fieldMap) :
  forallb (fun f => (schema.ValueOf f ctx r).2) fields = true ->
  fold_left (structValueStep ctx r) fields m0 = m0.
Proof.
  revert m0. induction fields as [|f fs IH]; intros m0 Hz; [done|].
  cbn [fold_left forallb] in *. apply andb_true_iff in Hz as [Hf Hfs].
  rewrite IH by done. unfold structValueStep.
  destruct (schema.ValueOf f ctx r) as [v z]. simpl in Hf. by subst z.
Qed.

(** What the slice loops do to the slot of one element, field by field. *)
Definition slotStep (elem : reflect.value) (slot : option fieldMap)
    (field : schema.Field) : option fieldMap :=
  let '(fieldValue, isZero) := schema.ValueOf field ctx elem in
  if isZero then slot
  else Some (<[schema.Name field := fieldValue]> (default ∅ slot)).

Lemma slotStep_fold (elem : reflect.value) (fields : list schema.Field)
    (slot : option fieldMap) :
  fold_left (slotStep elem) fields slot
  = if forallb (fun f => (schema.ValueOf f ctx elem).2) fields then slot
    else Some (fold_left (structValueStep ctx elem) fields (default ∅ slot)).
Proof.
  revert slot. induction fields as [|f fs IH]; intros slot; [done|].
  cbn [fold_left forallb]. rewrite IH. clear IH.
  destruct (schema.ValueOf f ctx elem) as [v z] eqn:Hv.
  assert (Hslot : slotStep elem slot f
                  = if z then slot
                    else Some (<[schema.Name f := v]> (default ∅ slot))).
  { unfold slotStep. by rewrite Hv. }
  assert (Hstep : structValueStep ctx elem (default ∅ slot) f
                  = if z then default ∅ slot
                    else <[schema.Name f := v]> (default ∅ slot)).
  { unfold structValueStep. by rewrite Hv. }
  rewrite Hslot, Hstep. destruct z; simpl; [done|].
  destruct (forallb _ fs) eqn:Hz; [|done].
  by rewrite structValueData_fold_zero.
Qed.

Variable reflectValue : reflect.value.

Lemma sliceValueStep_at (field : schema.Field)
    (arr : list (option fieldMap)) (i : nat) (elem : reflect.value)
    (slot : option fieldMap) :
  reflect.Index reflectValue i = Some elem ->
  arr !! i = Some slot ->
  sliceValueStep ctx field reflectValue arr i !! i
  = Some (slotStep elem slot field).
Proof.
  intros Hi Hslot. unfold sliceValueStep, slotStep. rewrite Hi.
  assert (Hlt : (i < length arr)%nat) by by eapply lookup_lt_Some.
  destruct (schema.ValueOf field ctx elem) as [v [|]]; [done|].
  rewrite Hslot. destruct slot as [m|].
  - rewrite Hslot. by rewrite list_lookup_insert_eq.
  - rewrite list_lookup_insert_eq by done.
    rewrite list_lookup_insert_eq; [done|by rewrite length_insert].
Qed.

Lemma sliceValueStep_fold_length (field : schema.Field) (l : list nat)
    (arr : list (option fieldMap)) :
  length (fold_left (sliceValueStep ctx field reflectValue) l arr)
  = length arr.
Proof.
  revert arr. induction l as [|j l IH]; intros arr; [done|].
  cbn [fold_left]. by rewrite IH, sliceValueStep_length.
Qed.

Lemma sliceValueStep_fold_other (field : schema.Field) (l : list nat)
    (arr : list (option fieldMap)) (i : nat) :
  i ∉ l ->
  fold_left (sliceValueStep ctx field reflectValue) l arr !! i = arr !! i.
Proof.
  revert arr. induction l as [|j l IH]; intros arr Hi; [done|].
  cbn [fold_left]. apply not_elem_of_cons in Hi as [Hne Hi].
  rewrite IH by done. by apply sliceValueStep_other.
Qed.

Lemma sliceValueStep_fold_at (field : schema.Field) (l : list nat)
    (arr : list (option fieldMap)) (i : nat) (elem : reflect.value)
    (slot : option fieldMap) :
  NoDup l ->
  i ∈ l ->
  reflect.Index reflectValue i = Some elem ->
  arr !! i = Some slot ->
  fold_left (sliceValueStep ctx field reflectValue) l arr !! i
  = Some (slotStep elem slot field).
Proof.
  revert arr. induction l as [|j l IH]; intros arr Hnd Hin Hi Hslot.
  - by apply elem_of_nil in Hin.
  - cbn [fold_left]. apply NoDup_cons in Hnd as [Hj Hnd].
    apply elem_of_cons in Hin as [->|Hin].
    + rewrite sliceValueStep_fold_other by done.
      by apply sliceValueStep_at.
    + apply IH; try done.
      rewrite sliceValueStep_other; [done|]. by intros ->.
Qed.

(** The slot of element [i] after the two loops, started from [arr]. *)
Lemma sliceValueData_fold_slot (fields : list schema.Field)
    (arr : list (option fieldMap)) (i : nat) (elem : reflect.value)
    (slot : option fieldMap) :
  (i < reflect.Len reflectValue)%nat ->
  reflect.Index reflectValue i = Some elem ->
  arr !! i = Some slot ->
  fold_left
    (fun valueArrData field =>
       fold_left (sliceValueStep ctx field reflectValue)
                 (seq 0 (reflect.Len reflectValue)) valueArrData)
    fields arr !! i
  = Some (fold_left (slotStep elem) fields slot).
Proof.
  intros Hlt Hi. revert arr slot.
  induction fields as [|f fs IH]; intros arr slot Hslot; [done|].
  cbn [fold_left]. apply IH.
  apply sliceValueStep_fold_at; try done.
  - apply NoDup_seq.
  - apply elem_of_seq. lia.
Qed.

End encode_loops.

(** X13. The field map of the struct case holds exactly the fields whose
    accessor does not report zero: with field names that differ, a field
    that is not zero is in the map under its name with the value the
    accessor returned, a zero field is absent, and so is every other
    name. *)
Theorem structValueData_exactly_nonzero (ctx : context.Context)
    (fields : list schema.Field) (r : reflect.value) :
  NoDup (map schema.Name fields) ->
  (forall f, f ∈ fields ->
     structValueData ctx fields r !! schema.Name f
     = if (schema.ValueOf f ctx r).2 then None
       else Some (schema.ValueOf f ctx r).1)
  /\ (forall n, n ∉ map schema.Name fields ->
        structValueData ctx fields r !! n = None).
Proof.
  intros Hnd. unfold structValueData. split.
  - intros f Hf. by rewrite structValueData_fold_field, lookup_empty.
  - intros n Hn. by rewrite structValueData_fold_other, lookup_empty.
Qed.

(** A user with an id and no name: the id is in the map, the name is
    not. *)
Lemma structValueData_exactly_nonzero_witness :
  let fields := schema.Fields (parseSchema sample.User) in
  let r := sample.user 7 "" (reflect.Dec 0 0) in
  let m := structValueData context.Background fields r in
  m !! "ID" = Some (reflect.VInt 7) /\ m !! "Name" = None /\ m !! "Age" = None.
Proof.
  intros fields r m. subst m.
  assert (Hnd : NoDup (map schema.Name fields)).
  { apply (bool_decide_unpack _). vm_compute. exact I. }
  destruct (structValueData_exactly_nonzero context.Background fields r Hnd)
    as [Hin Hout].
  split; [|split].
  - apply (Hin (plainField "ID")). apply list_elem_of_here.
  - apply (Hin (plainField "Name")).
    apply list_elem_of_further, list_elem_of_here.
  - apply Hout. apply (bool_decide_unpack _). vm_compute. exact I.
Defined.

(** X14. The slice case keeps one slot per element, in order, and the
    slot of an element holds the very field map the struct case builds for
    that element, but for an element all of whose fields are zero, whose
    slot is the nil map. *)
Theorem sliceValueData_slots (ctx : context.Context)
    (fields : list schema.Field) (reflectValue : reflect.value) :
  length (sliceValueData ctx fields reflectValue) = reflect.Len reflectValue
  /\ forall i elem,
       reflect.Index reflectValue i = Some elem ->
       sliceValueData ctx fields reflectValue !! i
       = Some (if forallb (fun f => (schema.ValueOf f ctx elem).2) fields
               then None
               else Some (structValueData ctx fields elem)).
Proof.
  split; [apply sliceValueData_length|].
  intros i elem Hi.
  assert (Hlt : (i < reflect.Len reflectValue)%nat).
  { unfold reflect.Index, reflect.Len in *.
    destruct reflectValue; try done; by apply lookup_lt_Some in Hi. }
  unfold sliceValueData.
  rewrite (sliceValueData_fold_slot ctx reflectValue fields _ i elem None Hlt Hi)
    by by apply lookup_replicate_2.
  by rewrite slotStep_fold.
Qed.

(** Three users in an array, the second without any field set. *)
Lemma sliceValueData_slots_witness :
  let fields := schema.Fields (parseSchema sample.User) in
  let ann := sample.user 1 "Ann" (reflect.Dec 0 0) in
  let found :=
    reflect.VArray (reflect.ArrayOf "" "" 3 sample.User)
      [ann; reflect.Zero sample.User; sample.user 3 "Cy" (reflect.Dec 0 0)] in
  let slots := sliceValueData context.Background fields found in
  length slots = 3%nat
  /\ slots !! 0%nat = Some (Some (structValueData context.Background fields ann))
  /\ slots !! 1%nat = Some None.
Proof.
  intros fields ann found slots. subst slots.
  destruct (sliceValueData_slots context.Background fields found) as [Hlen Hs].
  split; [exact Hlen|]. split.
  - apply (Hs 0%nat ann eq_refl).
  - apply (Hs 1%nat (reflect.Zero sample.User) eq_refl).
Defined.

(** ** Package cachekv *)

Module cachekv.

(** *** The in-memory store

    [sync.Map] is a map, [time.Time] an instant and [time.Duration] a
    span, both counted in nanoseconds; [time.Now()] is what the clock
    shows when the method runs, and is passed in as [now]. *)
Record Mdb := mkMdb {
  data : gmap string string;
  expires : gmap string Z;
}.

Definition MemKV : Mdb := mkMdb ∅ ∅.

Definition Mdb_Get (kv : Mdb) (now : Z) (ctx : context.Context) (key : string)
    : (bool * string * option error) * Mdb :=
  match expires kv !! key with
  | Some ext =>
      if (ext <? now)%Z then
        ((false, "", None), mkMdb (delete key (data kv)) (delete key (expires kv)))
      else
        match data kv !! key with
        | Some val => ((true, val, None), kv)
        | None => ((false, "", None), kv)
        end
  | None => ((false, "", None), kv)
  end.

Definition Mdb_Set (kv : Mdb) (now : Z) (ctx : context.Context)
    (key value : string) (exp : Z) : option error * Mdb :=
  (None, mkMdb (<[key := value]> (data kv)) (<[key := (now + exp)%Z]> (expires kv))).

(** Every key with an expiry has a value, and the other way round. *)
Definition consistent (kv : Mdb) : Prop :=
  forall key, is_Some (expires kv !! key) <-> is_Some (data kv !! key).

(** *** The Redis store

    What the client answers to a [Get]: a value, or an error that is
    either the sentinel [redis.Nil] or something else. *)
Inductive redisError :=
| Nil
| Failure (err : error).

Record Client (R : Type) := mkClient {
  client_Get : context.Context -> string -> R ->
               (string * option redisError) * R;
  client_SetEX : context.Context -> string -> string -> Z -> R ->
                 option redisError * R;
}.
Arguments client_Get {R} _ _ _ _.
Arguments client_SetEX {R} _ _ _ _ _ _.

(** A Redis error as a Go [error]; [redis.Nil] reads "redis: nil". *)
Definition asError (e : redisError) : error :=
  match e with
  | Nil => errors.New "redis: nil"
  | Failure err => err
  end.

Definition Rdb_Get {R} (client : Client R) (ctx : context.Context)
    (key : string) (r : R) : (bool * string * option error) * R :=
  let '((val, err), r) := client_Get client ctx key r in
  match err with
  | Some Nil => ((false, "", None), r)
  | Some e => ((false, "", Some (asError e)), r)
  | None => ((true, val, None), r)
  end.

Definition Rdb_Set {R} (client : Client R) (ctx : context.Context)
    (key value : string) (exp : Z) (r : R) : option error * R :=
  let '(err, r) := client_SetEX client ctx key value exp r in
  (asError <$> err, r).

End cachekv.

(** X15. What is set in the in-memory store at [now] with expiry [exp] is
    found by a [Get] at [now'] as long as [now'] is not after
    [now + exp], the boundary included; after that the [Get] misses and
    removes the entry, value and expiry. Neither call returns an error. *)
Theorem Mdb_Set_then_Get (kv : cachekv.Mdb) (now now' exp : Z)
    (ctx : context.Context) (key value : string) :
  let set := cachekv.Mdb_Set kv now ctx key value exp in
  let get := cachekv.Mdb_Get set.2 now' ctx key in
  set.1 = None
  /\ (now' <= now + exp -> get = ((true, value, None), set.2))
  /\ (now + exp < now' ->
      get.1 = (false, "", None)
      /\ cachekv.data get.2 !! key = None
      /\ cachekv.expires get.2 !! key = None).
Proof.
  intros set get. subst set get. unfold cachekv.Mdb_Get, cachekv.Mdb_Set.
  simpl. rewrite !lookup_insert_eq. split; [done|]. split.
  - intros Hle. apply Z.ltb_ge in Hle. by rewrite Hle.
  - intros Hlt. apply Z.ltb_lt in Hlt. rewrite Hlt. simpl.
    by rewrite !lookup_delete_eq.
Qed.

(** An entry set for five seconds at second 10: there at second 15, gone
    one nanosecond later. *)
Lemma Mdb_Set_then_Get_witness :
  let kv := (cachekv.Mdb_Set cachekv.MemKV 10000000000 context.Background
               "bbb" "asd" 5000000000).2 in
  (cachekv.Mdb_Get kv 15000000000 context.Background "bbb").1
  = (true, "asd", None)
  /\ (cachekv.Mdb_Get kv 15000000001 context.Background "bbb").1
     = (false, "", None).
Proof.
  intros kv. subst kv.
  destruct (Mdb_Set_then_Get cachekv.MemKV 10000000000 15000000000 5000000000
              context.Background "bbb" "asd") as (_ & Hin & _).
  destruct (Mdb_Set_then_Get cachekv.MemKV 10000000000 15000000001 5000000000
              context.Background "bbb" "asd") as (_ & _ & Hout).
  split.
  - rewrite Hin; [reflexivity|lia].
  - apply Hout. lia.
Defined.

(** X16. In the in-memory store a [Set] or a [Get] for one key changes
    nothing for another key: its value and its expiry stay as they were,
    and so does what a [Get] for it returns at any time. *)
Theorem Mdb_other_key_untouched (kv : cachekv.Mdb) (now now' exp : Z)
    (ctx : context.Context) (key key' value : string) :
  key <> key' ->
  let set := (cachekv.Mdb_Set kv now ctx key value exp).2 in
  let got := (cachekv.Mdb_Get kv now ctx key).2 in
  (cachekv.Mdb_Get set now' ctx key').1 = (cachekv.Mdb_Get kv now' ctx key').1
  /\ (cachekv.Mdb_Get got now' ctx key').1 = (cachekv.Mdb_Get kv now' ctx key').1.
Proof.
  intros Hne set got. subst set got. split.
  - unfold cachekv.Mdb_Get, cachekv.Mdb_Set. simpl.
    rewrite !lookup_insert_ne by done.
    destruct (cachekv.expires kv !! key') as [ext|]; [|done].
    destruct (ext <? now')%Z; [done|]. by destruct (cachekv.data kv !! key').
  - unfold cachekv.Mdb_Get at 2.
    destruct (cachekv.expires kv !! key) as [ext|]; [|done].
    destruct (ext <? now)%Z.
    + unfold cachekv.Mdb_Get. simpl. rewrite !lookup_delete_ne by done.
      destruct (cachekv.expires kv !! key') as [ext'|]; [|done].
      destruct (ext' <? now')%Z; [done|]. by destruct (cachekv.data kv !! key').
    + by destruct (cachekv.data kv !! key).
Qed.

(** Setting "aaa" does not disturb "bbb". *)
Lemma Mdb_other_key_untouched_witness :
  let kv := (cachekv.Mdb_Set cachekv.MemKV 0 context.Background
               "bbb" "asd" 5).2 in
  (cachekv.Mdb_Get
     (cachekv.Mdb_Set kv 1 context.Background "aaa" "x" 1).2
     3 context.Background "bbb").1
  = (true, "asd", None).
Proof.
  intros kv.
  rewrite (proj1 (Mdb_other_key_untouched kv 1 3 1 context.Background
                    "aaa" "bbb" "x" ltac:(discriminate))).
  reflexivity.
Defined.

(** X17. The in-memory store keeps values and expiries in step: a new
    store has neither, and [Set] and [Get] take a store in which every
    key has both or neither to such a store again; in such a store a
    [Get] misses only for a key that was never set, or was removed, or
    whose expiry has passed. *)
Theorem Mdb_consistent_kept (kv : cachekv.Mdb) (now exp : Z)
    (ctx : context.Context) (key value : string) :
  cachekv.consistent cachekv.MemKV
  /\ (cachekv.consistent kv ->
      cachekv.consistent (cachekv.Mdb_Set kv now ctx key value exp).2
      /\ cachekv.consistent (cachekv.Mdb_Get kv now ctx key).2
      /\ ((cachekv.Mdb_Get kv now ctx key).1 = (false, "", None)
          -> cachekv.data kv !! key = None
             \/ exists ext, cachekv.expires kv !! key = Some ext /\ ext < now)).
Proof.
  split.
  - intros k. simpl. by rewrite !lookup_empty.
  - intros Hc. split; [|split].
    + intros k. simpl. destruct (decide (key = k)) as [->|Hne].
      * rewrite !lookup_insert_eq. split; by eexists.
      * rewrite !lookup_insert_ne by done. apply Hc.
    + unfold cachekv.Mdb_Get.
      destruct (cachekv.expires kv !! key) as [ext|] eqn:He; [|done].
      destruct (ext <? now)%Z; [|by destruct (cachekv.data kv !! key)].
      intros k. simpl. destruct (decide (key = k)) as [->|Hne].
      * rewrite !lookup_delete_eq. split; intros [? ?]; done.
      * rewrite !lookup_delete_ne by done. apply Hc.
    + unfold cachekv.Mdb_Get.
      destruct (cachekv.expires kv !! key) as [ext|] eqn:He.
      * destruct (ext <? now)%Z eqn:Hlt.
        -- intros _. right. exists ext. split; [done|]. by apply Z.ltb_lt.
        -- destruct (cachekv.data kv !! key) as [v|] eqn:Hd; [done|].
           intros _. by left.
      * intros _. left. destruct (cachekv.data kv !! key) as [v|] eqn:Hd;
          [|done].
        assert (Hs : is_Some (cachekv.expires kv !! key)).
        { apply Hc. rewrite Hd. by eexists. }
        rewrite He in Hs. by destruct Hs.
Qed.

(** A store with one entry, read after the entry's time. *)
Lemma Mdb_consistent_kept_witness :
  let kv := (cachekv.Mdb_Set cachekv.MemKV 0 context.Background
               "bbb" "asd" 5).2 in
  cachekv.consistent kv
  /\ cachekv.consistent (cachekv.Mdb_Get kv 9 context.Background "bbb").2.
Proof.
  intros kv.
  destruct (Mdb_consistent_kept cachekv.MemKV 0 5 context.Background
              "bbb" "asd") as [H0 H1].
  destruct (H1 H0) as (Hset & _).
  split; [exact Hset|].
  destruct (Mdb_consistent_kept kv 9 5 context.Background "bbb" "asd")
    as [_ H2].
  exact (proj1 (proj2 (H2 Hset))).
Defined.

(** X18. The Redis store never reports a found value together with an
    error: a value comes back exactly when the client had no error, the
    client's [redis.Nil] becomes a miss without error, and any other
    error is passed on with nothing found; the client's state is the
    store's. *)
Theorem Rdb_Get_outcome (R : Type) (client : cachekv.Client R)
    (ctx : context.Context) (key : string) (r : R) :
  let answer := cachekv.client_Get client ctx key r in
  let result := cachekv.Rdb_Get client ctx key r in
  result.2 = answer.2
  /\ (result.1.1.1 = true <-> answer.1.2 = None)
  /\ (result.1.1.1 = true -> result.1.1.2 = answer.1.1 /\ result.1.2 = None)
  /\ (result.1.1.1 = false -> result.1.1.2 = "")
  /\ (answer.1.2 = Some cachekv.Nil -> result.1 = (false, "", None))
  /\ (forall err, answer.1.2 = Some (cachekv.Failure err) ->
        result.1 = (false, "", Some err)).
Proof.
  intros answer result. subst answer result. unfold cachekv.Rdb_Get.
  destruct (cachekv.client_Get client ctx key r) as [[val [[|e]|]] r'];
    simpl; repeat split; try done; intros; simplify_eq; done.
Qed.

(** A client that holds one key and fails on the key "down". *)
Lemma Rdb_Get_outcome_witness :
  let client :=
    cachekv.mkClient (gmap string string)
      (fun _ key (r : gmap string string) =>
         if decide (key = "down")
         then (("", Some (cachekv.Failure (errors.New "i/o timeout"))), r)
         else match r !! key with
              | Some v => ((v, None), r)
              | None => (("", Some cachekv.Nil), r)
              end)
      (fun _ key value _ (r : gmap string string) => (None, <[key := value]> r)) in
  let r : gmap string string := {[ "k" := "v" ]} in
  (cachekv.Rdb_Get client context.Background "k" r).1 = (true, "v", None)
  /\ (cachekv.Rdb_Get client context.Background "absent" r).1 = (false, "", None)
  /\ (cachekv.Rdb_Get client context.Background "down" r).1
     = (false, "", Some (errors.New "i/o timeout")).
Proof.
  intros client r. split; [reflexivity|]. split.
  - apply (Rdb_Get_outcome _ client context.Background "absent" r).
    reflexivity.
  - apply (Rdb_Get_outcome _ client context.Background "down" r).
    reflexivity.
Defined.

(** ** The earlier revision of the plugin

    The revision that keys by schema names ([RegisterGormCache],
    [Schemas]) has the same [canCache], [queryResult], [unmarshalToDB] and
    [queryAfter]; its [schemaNames] is [modelNames] here. Its [query] and
    [queryFromDB] differ. *)

Module legacy.

Section legacy.

Context {E : Env}.

(** [queryFromDB] marks the context, whatever the statement. *)
Definition queryFromDB (db : gorm.DB) (w : World E) : gorm.DB * World E :=
  let db := tagged db in
  let '((rows, err), w) := connQuery db w in
  match err with
  | Some e => (gorm.AddError db (Some e), w)
  | None => (Scan E rows db, w)
  end.

(** [query]: after a miss the call through the request group is not
    followed by a [return], so control reaches the [queryFromDB] at the
    end of the function as well. *)
Definition query (g : GormCacher E) (db : gorm.DB) (w : World E)
    : gorm.DB * World E :=
  if gorm.DryRun db || bool_decide (is_Some (gorm.Error db)) then (db, w)
  else
    let db := BuildQuerySQL E db in
    if canCache g db then
      let cachekey := cacheKeyFunc g db in
      let '((ok, value, err), w) :=
        kvGet g (gorm.Context (gorm.Statement db)) cachekey w in
      match err with
      | Some e => (gorm.AddError db (NewErrGormCache (Some e)), w)
      | None =>
          if ok then unmarshalToDB g value db w
          else
            let '(db, w) :=
              singleflight.Do cachekey (fun _ => queryFromDB db w) in
            queryFromDB db w
      end
    else queryFromDB db w.

End legacy.

End legacy.

(** One run of the earlier [queryFromDB] sends one query and does not
    touch the store. *)
Lemma legacy_queryFromDB_trace (E : Env) (db : gorm.DB) (w : World E) :
  connQueries (trace (legacy.queryFromDB db w).2)
  = (connQueries (trace w)
     ++ [ConnQuery (gorm.SQL (gorm.Statement db))
                   (gorm.Vars (gorm.Statement db))])%list
  /\ kvCalls (trace (legacy.queryFromDB db w).2) = kvCalls (trace w).
Proof.
  unfold legacy.queryFromDB, connQuery.
  destruct (QueryContext E _ _ _ _) as [[rows [e|]] c]; simpl;
    rewrite connQueries_app, kvCalls_app; simpl; by rewrite app_nil_r.
Qed.

(** X19. In the earlier revision a miss on a cacheable statement sends
    the query to the database twice: once through the request group and
    once more at the end of [query]. The store sees the one [Get]. *)
Theorem legacy_miss_queries_twice (E : Env) (g : GormCacher E) (db : gorm.DB)
    (w : World E) (value : string) (s : KVState E) :
  let db0 := BuildQuerySQL E db in
  let key := cacheKeyFunc g db0 in
  gorm.DryRun db = false ->
  gorm.Error db = None ->
  canCache g db0 = true ->
  Get (kv g) (gorm.Context (gorm.Statement db0)) key (kvs w)
  = ((false, value, None), s) ->
  length (connQueries (trace (legacy.query g db w).2))
  = (length (connQueries (trace w)) + 2)%nat
  /\ kvCalls (trace (legacy.query g db w).2)
     = (kvCalls (trace w) ++ [KvGet key])%list.
Proof.
  intros db0 key Hdry Herr Hcan Hget. unfold legacy.query.
  rewrite Hdry, Herr. simpl. fold db0. rewrite Hcan. unfold kvGet.
  fold key. rewrite Hget. unfold singleflight.Do.
  destruct (legacy.queryFromDB db0 _) as [db1 w1] eqn:H1.
  pose proof (legacy_queryFromDB_trace E db0
                (mkWorld s (conn w) (trace w ++ [KvGet key]))) as [Hq1 Hk1].
  rewrite H1 in Hq1, Hk1. simpl in Hq1, Hk1.
  destruct (legacy_queryFromDB_trace E db1 w1) as [Hq2 Hk2].
  rewrite Hq2, Hk2, Hq1, Hk1.
  rewrite connQueries_app, kvCalls_app. simpl.
  rewrite !length_app. simpl. split; [lia|done].
Qed.

(** The first query for a user, through the earlier revision. *)
Lemma legacy_miss_queries_twice_witness :
  let g := sample.cacher memKV in
  let db := sample.db (reflect.Zero sample.User) sample.User
                      "SELECT * FROM users LIMIT 1" in
  let w := sample.world ∅ sample.mike in
  trace (legacy.query g db w).2
  = [KvGet "SELECT * FROM users LIMIT 1";
     ConnQuery "SELECT * FROM users LIMIT 1" [];
     ConnQuery "SELECT * FROM users LIMIT 1" []]
  /\ length (connQueries (trace (legacy.query g db w).2)) = 2%nat.
Proof.
  intros g db w. split; [reflexivity|].
  apply (legacy_miss_queries_twice memEnv g db w "" ∅
           eq_refl eq_refl eq_refl eq_refl).
Defined.

(** ** What the callbacks never do *)

Section footprint.

Context {E : Env}.

Lemma queryFromDB_trace (g : GormCacher E) (db : gorm.DB) (cachekey : string)
    (w : World E) :
  trace (queryFromDB g db cachekey w).2
  = (trace w ++ [ConnQuery (gorm.SQL (gorm.Statement db))
                           (gorm.Vars (gorm.Statement db))])%list
  /\ kvs (queryFromDB g db cachekey w).2 = kvs w.
Proof.
  unfold queryFromDB, singleflight.Do, connQuery.
  destruct (decide (cachekey = "")) as [Hk|Hk].
  - destruct (QueryContext E _ _ _ _) as [[rows [e|]] c]; done.
  - simpl. destruct (QueryContext E _ _ _ _) as [[rows [e|]] c]; done.
Qed.

Lemma unmarshalToDB_trace (g : GormCacher E) (value : string) (db : gorm.DB)
    (w : World E) :
  exists l,
    trace (unmarshalToDB g value db w).2 = (trace w ++ l)%list
    /\ connQueries l = [] /\ kvCalls l = [].
Proof.
  unfold unmarshalToDB.
  destruct (Unmarshal (json E) value _) as [dest [e|]].
  - exists []. by rewrite app_nil_r.
  - destruct (reflect.KindOf _) eqn:Hk; simpl;
      first [by exists []; rewrite app_nil_r | by eexists [_]].
Qed.

End footprint.

(** X20. Whatever the statement, the store and the database do, [query]
    never calls [Set], calls [Get] at most once, with the key of the
    cache-key function on the built statement, and sends at most one
    query to the database. *)
Theorem query_footprint (E : Env) (g : GormCacher E) (db : gorm.DB)
    (w : World E) :
  exists l,
    trace (query g db w).2 = (trace w ++ l)%list
    /\ (length (connQueries l) <= 1)%nat
    /\ (kvCalls l = []
        \/ kvCalls l = [KvGet (cacheKeyFunc g (BuildQuerySQL E db))]).
Proof.
  unfold query.
  destruct (gorm.DryRun db || bool_decide (is_Some (gorm.Error db))).
  { exists []. rewrite app_nil_r. simpl. auto. }
  destruct (canCache g (BuildQuerySQL E db)).
  - unfold kvGet.
    destruct (Get (kv g) _ _ _) as [[[ok value] [e|]] s].
    + eexists [_]. simpl. auto.
    + destruct ok.
      * destruct (unmarshalToDB_trace g value (BuildQuerySQL E db)
                    (mkWorld s (conn w)
                       (trace w ++ [KvGet (cacheKeyFunc g (BuildQuerySQL E db))])))
          as (l & Ht & Hq & Hk).
        exists (KvGet (cacheKeyFunc g (BuildQuerySQL E db)) :: l).
        rewrite Ht. simpl. rewrite <- app_assoc. simpl.
        split; [done|]. fold (connQueries l) (kvCalls l). rewrite Hq, Hk.
        simpl. auto.
      * destruct (queryFromDB_trace g (BuildQuerySQL E db)
                    (cacheKeyFunc g (BuildQuerySQL E db))
                    (mkWorld s (conn w)
                       (trace w ++ [KvGet (cacheKeyFunc g (BuildQuerySQL E db))])))
          as [Ht _].
        eexists [_; _]. rewrite Ht. simpl. rewrite <- app_assoc. simpl. auto.
  - destruct (queryFromDB_trace g (BuildQuerySQL E db) "" w) as [Ht _].
    eexists [_]. rewrite Ht. simpl. auto.
Qed.

(** X21. Whatever the statement and the store do, [queryAfter] never
    queries the database and never calls [Get]; it calls [Set] at most
    once, with the key of the cache-key function and the configured
    expiry. *)
Theorem queryAfter_footprint (E : Env) (g : GormCacher E) (db : gorm.DB)
    (w : World E) :
  exists l,
    trace (queryAfter g db w).2 = (trace w ++ l)%list
    /\ conn (queryAfter g db w).2 = conn w
    /\ connQueries l = []
    /\ (kvCalls l = []
        \/ exists payload,
             kvCalls l = [KvSet (cacheKeyFunc g db) payload (exp g)]).
Proof.
  unfold queryAfter.
  destruct (context.Value _ _).
  2:{ exists []. rewrite app_nil_r. simpl. auto. }
  destruct (_ || _ || _).
  { exists []. rewrite app_nil_r. simpl. auto. }
  unfold queryResult.
  destruct (gorm.Schema (gorm.Statement db)) as [sch|].
  2:{ exists []. rewrite app_nil_r. simpl. auto. }
  destruct (reflect.KindOf _);
    try (eexists [_]; simpl; split; [reflexivity|]; simpl; by auto).
  - destruct (Marshal (json E) _) as [val [e|]]; simpl.
    + exists []. rewrite app_nil_r. simpl. auto.
    + unfold kvSet. destruct (Set_ (kv g) _ _ _ _ _) as [serr s]. simpl.
      eexists [_]. simpl. split; [reflexivity|]. repeat split; eauto.
  - destruct (Marshal (json E) _) as [val [e|]]; simpl.
    + exists []. rewrite app_nil_r. simpl. auto.
    + unfold kvSet. destruct (Set_ (kv g) _ _ _ _ _) as [serr s]. simpl.
      eexists [_]. simpl. split; [reflexivity|]. repeat split; eauto.
  - destruct (Marshal (json E) _) as [val [e|]]; simpl.
    + exists []. rewrite app_nil_r. simpl. auto.
    + unfold kvSet. destruct (Set_ (kv g) _ _ _ _ _) as [serr s]. simpl.
      eexists [_]. simpl. split; [reflexivity|]. repeat split; eauto.
Qed.
